(** * dom-testing-library: label-text queries, title queries and query suggestions

    A shallow embedding of [queries/label-text], [queries/title.js] and
    [suggestions] over a small model of the DOM, and the properties the
    specification states about them. *)

From Stdlib Require Import String Ascii List Bool Arith Lia.
Import ListNotations.
Open Scope string_scope.
Open Scope list_scope.

(** ** JavaScript strings *)

Module JsString.

(** ASCII part of the class [\s] of JavaScript regular expressions, which is
    also what [String.prototype.trim] strips. *)
Definition is_space (c : ascii) : bool :=
  let n := nat_of_ascii c in
  ((n =? 32) || ((9 <=? n) && (n <=? 13)))%nat.

(** Whitespace of CSS and of HTML token lists: space, tab, LF, FF, CR. *)
Definition is_css_space (c : ascii) : bool :=
  let n := nat_of_ascii c in
  ((n =? 32) || (n =? 9) || (n =? 10) || (n =? 12) || (n =? 13))%nat.

Fixpoint trim_start (s : string) : string :=
  match s with
  | String c s' => if is_space c then trim_start s' else s
  | EmptyString => EmptyString
  end.

(** Drops the trailing white space: a character is kept when it is not a
    space or when something is kept after it. *)
Fixpoint trim_end (s : string) : string :=
  match s with
  | EmptyString => EmptyString
  | String c s' =>
      match trim_end s' with
      | EmptyString => if is_space c then EmptyString else String c EmptyString
      | r => String c r
      end
  end.

(** [s.trim()] *)
Definition trim (s : string) : string := trim_end (trim_start s).

(** [s.replace(/\s+/g, ' ')]: every run of white space becomes one space.
    [in_run] says that the previous character was white space. *)
Fixpoint collapse_from (in_run : bool) (s : string) : string :=
  match s with
  | EmptyString => EmptyString
  | String c s' =>
      if is_space c
      then (if in_run then collapse_from true s'
            else String " "%char (collapse_from true s'))
      else String c (collapse_from false s')
  end.

Definition collapse (s : string) : string := collapse_from false s.

Fixpoint drop (n : nat) (s : string) : string :=
  match n, s with
  | O, _ => s
  | S n', String _ s' => drop n' s'
  | S _, EmptyString => EmptyString
  end.

(** [s.replace(pat, '')] with a string pattern: only the first occurrence
    of [pat] goes, wherever it is; an empty [pat] changes nothing. *)
Fixpoint remove_first (pat s : string) : string :=
  if prefix pat s then drop (String.length pat) s
  else match s with
       | EmptyString => EmptyString
       | String c s' => String c (remove_first pat s')
       end.

Fixpoint includes (needle hay : string) : bool :=
  prefix needle hay ||
  match hay with
  | EmptyString => false
  | String _ hay' => includes needle hay'
  end.

Definition lower_char (c : ascii) : ascii :=
  let n := nat_of_ascii c in
  if ((65 <=? n) && (n <=? 90))%nat then ascii_of_nat (n + 32) else c.

(** [s.toLowerCase()] on the letters of ASCII; the other characters stay as
    they are. *)
Fixpoint toLowerCase (s : string) : string :=
  match s with
  | EmptyString => EmptyString
  | String c s' => String (lower_char c) (toLowerCase s')
  end.

(** Splits on runs of CSS white space, as the [~=] attribute selector does
    with the attribute's value. [cur] is the token being read. *)
Fixpoint tokens_from (cur : string) (s : string) : list string :=
  match s with
  | EmptyString => if String.eqb cur EmptyString then [] else [cur]
  | String c s' =>
      if is_css_space c
      then (if String.eqb cur EmptyString then tokens_from EmptyString s'
            else cur :: tokens_from EmptyString s')
      else tokens_from (cur ++ String c EmptyString)%string s'
  end.

Definition tokens (s : string) : list string := tokens_from EmptyString s.

Fixpoint has_css_space (s : string) : bool :=
  match s with
  | EmptyString => false
  | String c s' => is_css_space c || has_css_space s'
  end.

(** A string is truthy when it is not empty. *)
Definition truthy (s : string) : bool := negb (String.eqb s EmptyString).

End JsString.

(** ** The document tree *)

(** The [value] property of an element, as far as the code looks at it. It
    is [undefined] on the elements that have no such property, a string on
    the text controls, and a number on [meter], [progress] and [li]. Of a
    number the code sees two things: what it prints as (inside [replace] or
    a template literal) and whether it is truthy (neither zero nor NaN). *)
Inductive JsValue : Type :=
| VUndefined
| VString (s : string)
| VNumber (printed : string) (nonzero : bool).

(** A node is a text node or an element. An element has an identity [nid]
    (what [===] compares), a tag name in lower case, its attributes in
    source order, its [value] property and its child nodes. *)
#[warning="-register-all"]
Inductive node : Type :=
| TextNode (data : string)
| Element (nid : nat) (tagName : string) (attributes : list (string * string))
          (value : JsValue) (childNodes : list node).

(** An element handle: the node and its chain of ancestors, nearest first
    (what [parentElement] gives step by step). Two handles are the same
    element when their [nid] agree. *)
Record elem : Type := mkElem { ancestors : list node; self : node }.

(** ** Results and errors *)

Inductive error : Type :=
| ConfigurationError (msg : string)
| TypeError (msg : string)
| SyntaxError (selectorText : string)
| ElementError (msg : string) (container : elem).

Inductive result (A : Type) : Type :=
| Ok (a : A)
| Throw (e : error).
Arguments Ok {A} a.
Arguments Throw {A} e.

Definition bind {A B} (r : result A) (k : A -> result B) : result B :=
  match r with
  | Ok a => k a
  | Throw e => Throw e
  end.

Notation "x <- r ;; k" := (bind r (fun x => k))
  (at level 61, r at next level, right associativity).

(** ** DOM primitives *)

(** Selectors: the fragment of CSS that the queries build, and that a caller
    can pass as [selector], after parsing. An attribute value is carried as
    it is. The source splices the [for] and [id] values into a quoted
    selector text without escaping them: a value with a double quote, a
    backslash or a line break gives a text that the parser rejects or reads
    as another selector. Such values, and a caller's selector text that does
    not parse, have no counterpart in this type; the properties of the
    label-text queries below are about the calls that return. *)
Inductive Selector : Type :=
| SUniversal                              (* [*] *)
| STag (t : string)                       (* [t] *)
| SHasAttr (a : string)                   (* [[a]] *)
| SAttrEq (a v : string)                  (* [[a=v]], the value quoted *)
| SAttrIncludes (a v : string)            (* [[a~=v]], the value quoted *)
| SAnd (s1 s2 : Selector)                 (* compound: [s1s2] *)
| SChild (p c : Selector)                 (* [p > c] *)
| SDescendant (p c : Selector)            (* [p c] *)
| SList (s1 s2 : Selector).               (* [s1, s2] *)

Module Dom.

Definition nid (n : node) : nat :=
  match n with
  | Element i _ _ _ _ => i
  | TextNode _ => 0
  end.

Definition tagName (n : node) : string :=
  match n with
  | Element _ t _ _ _ => t
  | TextNode _ => "#text"
  end.

Definition attributes (n : node) : list (string * string) :=
  match n with
  | Element _ _ a _ _ => a
  | TextNode _ => []
  end.

Definition childNodes (n : node) : list node :=
  match n with
  | Element _ _ _ _ cs => cs
  | TextNode _ => []
  end.

Definition isElement (n : node) : bool :=
  match n with
  | Element _ _ _ _ _ => true
  | TextNode _ => false
  end.

Fixpoint lookup_attr (a : string) (l : list (string * string)) : option string :=
  match l with
  | [] => None
  | (k, v) :: l' => if String.eqb k a then Some v else lookup_attr a l'
  end.

(** [node.getAttribute(a)]: [None] is JavaScript's [null]. *)
Definition attr (n : node) (a : string) : option string :=
  lookup_attr a (attributes n).

(** [node.textContent]: the text of all the text nodes below, in order. *)
Fixpoint textOf (n : node) : string :=
  match n with
  | TextNode d => d
  | Element _ _ _ _ cs => String.concat EmptyString (map textOf cs)
  end.

(** The elements below [n] in document order (pre-order), [n] excluded;
    [anc] is the ancestor chain of [n]. *)
Fixpoint descendants_of (anc : list node) (n : node) : list elem :=
  match n with
  | TextNode _ => []
  | Element _ _ _ _ cs =>
      flat_map (fun c =>
                  match c with
                  | TextNode _ => []
                  | Element _ _ _ _ _ =>
                      mkElem (n :: anc) c :: descendants_of (n :: anc) c
                  end) cs
  end.

Fixpoint some_ancestor (f : list node -> node -> bool) (anc : list node) : bool :=
  match anc with
  | [] => false
  | a :: rest => f rest a || some_ancestor f rest
  end.

Fixpoint sel_matches (anc : list node) (n : node) (s : Selector) : bool :=
  isElement n &&
  match s with
  | SUniversal => true
  | STag t => String.eqb (tagName n) t
  | SHasAttr a => match attr n a with Some _ => true | None => false end
  | SAttrEq a v =>
      match attr n a with Some w => String.eqb w v | None => false end
  | SAttrIncludes a v =>
      match attr n a with
      | Some w => existsb (String.eqb v) (JsString.tokens w)
      | None => false
      end
  | SAnd s1 s2 => sel_matches anc n s1 && sel_matches anc n s2
  | SChild p c =>
      sel_matches anc n c &&
      match anc with
      | a :: rest => sel_matches rest a p
      | [] => false
      end
  | SDescendant p c =>
      sel_matches anc n c && some_ancestor (fun rest a => sel_matches rest a p) anc
  | SList s1 s2 => sel_matches anc n s1 || sel_matches anc n s2
  end.

Definition id (e : elem) : nat := nid (self e).

(** Identity of nodes, as [===] and [Set] see it. *)
Definition same (a b : elem) : bool := Nat.eqb (id a) (id b).

Definition getAttribute (e : elem) (a : string) : option string := attr (self e) a.

Definition textContent (e : elem) : string := textOf (self e).

(** [e.value] *)
Definition valueOf (e : elem) : JsValue :=
  match self e with
  | Element _ _ _ v _ => v
  | TextNode _ => VUndefined
  end.

Definition hasChildNodes (e : elem) : bool :=
  match childNodes (self e) with [] => false | _ :: _ => true end.

Definition descendants (e : elem) : list elem :=
  descendants_of (ancestors e) (self e).

(** [e.matches(s)] *)
Definition matches (e : elem) (s : Selector) : bool :=
  sel_matches (ancestors e) (self e) s.

(** [Array.from(e.querySelectorAll(s))] *)
Definition querySelectorAll (e : elem) (s : Selector) : list elem :=
  filter (fun d => matches d s) (descendants e).

(** [e.querySelector(s)]: the first match in document order, or [null]. *)
Definition querySelector (e : elem) (s : Selector) : option elem :=
  hd_error (querySelectorAll e s).

End Dom.

(** The double quote character, as a string. *)
Definition dquote : string := String (ascii_of_nat 34) EmptyString.

(** A value inside a template literal or given to [replace]: [undefined]
    prints as the word. *)
Definition js_to_string (v : option string) : string :=
  match v with
  | Some s => s
  | None => "undefined"
  end.

(** A value that is a string or [null]/[undefined] is truthy when it is a
    non-empty string. *)
Definition js_truthy (v : option string) : bool :=
  match v with
  | Some s => JsString.truthy s
  | None => false
  end.

(** The same for a [value] property: how it prints, and whether it is
    truthy. *)
Definition value_to_string (v : JsValue) : string :=
  match v with
  | VUndefined => "undefined"
  | VString s => s
  | VNumber printed _ => printed
  end.

Definition value_truthy (v : JsValue) : bool :=
  match v with
  | VUndefined => false
  | VString s => JsString.truthy s
  | VNumber _ nonzero => nonzero
  end.

(** ** Patterns and options *)

(** [Matcher]: a string, a regular expression or a predicate. [source] is
    what the pattern prints as in a message. *)
Inductive Matcher : Type :=
| MString (s : string)
| MRegExp (source : string) (test : string -> bool)
| MFunction (source : string) (f : string -> elem -> bool).

Definition Matcher_toString (m : Matcher) : string :=
  match m with
  | MString s => s
  | MRegExp src _ => src
  | MFunction src _ => src
  end.

Definition NormalizerFn : Type := string -> string.

(** [SelectorMatcherOptions]; a field left out of the object is [None]. *)
Record SelectorMatcherOptions : Type := mkOptions {
  selector : option Selector;
  exact : option bool;
  collapseWhitespace : option bool;
  trim : option bool;
  normalizer : option NormalizerFn
}.

(** [{}] *)
Definition noOptions : SelectorMatcherOptions := mkOptions None None None None None.

(** A default value of a destructured parameter: [{x = d}]. *)
Definition orDefault {A} (d : A) (v : option A) : A :=
  match v with
  | Some a => a
  | None => d
  end.

Definition MatcherFn : Type := option string -> elem -> Matcher -> NormalizerFn -> bool.

(** What the query modules import from [./all-utils]. *)
Record AllUtils : Type := mkAllUtils {
  fuzzyMatches : MatcherFn;
  matches : MatcherFn;
  (* makeNormalizer({collapseWhitespace, trim, normalizer}) *)
  makeNormalizer : option bool -> option bool -> option NormalizerFn -> result NormalizerFn;
  (* queryAllByAttribute(attribute, container, text, options) *)
  queryAllByAttribute : string -> elem -> Matcher -> SelectorMatcherOptions -> result (list elem);
  getNodeText : elem -> string
}.

(** ** JavaScript arrays of elements *)

(** An array whose entries are elements or [null]. *)
Definition NodeArray : Type := list (option elem).

Definition sameEntry (a b : option elem) : bool :=
  match a, b with
  | Some x, Some y => Dom.same x y
  | None, None => true
  | _, _ => false
  end.

(** [Array.from(new Set(l))]: every value once, at the place of its first
    occurrence. [seen] holds the values met so far. *)
Fixpoint uniq_from (seen : NodeArray) (l : NodeArray) : NodeArray :=
  match l with
  | [] => []
  | x :: l' =>
      if existsb (sameEntry x) seen then uniq_from seen l'
      else x :: uniq_from (x :: seen) l'
  end.

Definition arrayFromSet (l : NodeArray) : NodeArray := uniq_from [] l.

(** [l.filter(element => element !== null)] *)
Definition filterNotNull (l : NodeArray) : NodeArray :=
  filter (fun x => match x with Some _ => true | None => false end) l.

(** [l.filter(element => element.matches(selector))]: calling [matches] on
    [null] is a [TypeError]. *)
Fixpoint filterMatches (sel : Selector) (l : NodeArray) : result NodeArray :=
  match l with
  | [] => Ok []
  | None :: _ => Throw (TypeError "Cannot read property 'matches' of null")
  | Some e :: l' =>
      rest <- filterMatches sel l' ;;
      Ok (if Dom.matches e sel then Some e :: rest else rest)
  end.

(** ** queries/label-text *)

Section LabelText.

(** [import {...} from './all-utils'] *)
Variable utils : AllUtils.
(** [import {queryAllByText} from './text'] *)
Variable queryAllByText : elem -> Matcher -> SelectorMatcherOptions -> result (list elem).
(** [import {checkContainerType} from '../helpers'] *)
Variable checkContainerType : elem -> result unit.
(** [label.control], the control the document associates with a label;
    [None] when there is none (or the property is not implemented). *)
Variable control : elem -> option elem.

Definition queryAllLabelsByText (container : elem) (text : Matcher)
           (o : SelectorMatcherOptions) : result (list elem) :=
  let matcher := if orDefault true (exact o) then matches utils else fuzzyMatches utils in
  matchNormalizer <- makeNormalizer utils (collapseWhitespace o) (trim o) (normalizer o) ;;
  Ok (filter
        (fun label =>
           let textToMatch := Dom.textContent label in
           (* the children of a textarea are part of textContent as well *)
           let textToMatch :=
             fold_left
               (fun t textarea => JsString.remove_first (value_to_string (Dom.valueOf textarea)) t)
               (Dom.querySelectorAll label (STag "textarea")) textToMatch in
           (* the children of a select are also part of textContent *)
           let textToMatch :=
             fold_left
               (fun t select => JsString.remove_first (Dom.textContent select) t)
               (Dom.querySelectorAll label (STag "select")) textToMatch in
           matcher (Some textToMatch) label text matchNormalizer)
        (Dom.querySelectorAll container (STag "label"))).

(** ['button, input, meter, output, progress, select, textarea'] *)
Definition formControlSelector : Selector :=
  SList (STag "button") (SList (STag "input") (SList (STag "meter")
    (SList (STag "output") (SList (STag "progress") (SList (STag "select")
      (STag "textarea")))))).

(** The elements under the container whose [aria-labelledby] lists the
    id: [[aria-labelledby~=id]], the id quoted. *)
Definition labelledBy (container : elem) (labelId : string) : list elem :=
  Dom.querySelectorAll container (SAttrIncludes "aria-labelledby" labelId).

(** The body of the [reduce] over the matching labels: [elementsForLabel]. *)
Definition elementsForLabel (container : elem) (sel : Selector) (label : elem) : NodeArray :=
  (match control label with
   | Some c => [Some c]
   | None => []
   end)
  ++ (if js_truthy (Dom.getAttribute label "for")
      then [Dom.querySelector container
              (SAttrEq "id" (js_to_string (Dom.getAttribute label "for")))]
      else [])
  ++ (if js_truthy (Dom.getAttribute label "id")
      then map Some (labelledBy container (js_to_string (Dom.getAttribute label "id")))
      else [])
  ++ (if Dom.hasChildNodes label
      then match hd_error (filter (fun element => Dom.matches element sel)
                             (Dom.querySelectorAll label formControlSelector)) with
           | Some labelledFormControl => [Some labelledFormControl]
           | None => []
           end
      else []).

(** The body of the [reduce] over the elements whose text matches. *)
Definition labelledNodes (container : elem) (nextLabelElement : elem) : list elem :=
  match Dom.getAttribute nextLabelElement "id" with
  | Some labelId =>
      if JsString.truthy labelId then labelledBy container labelId else []
  | None => []
  end.

Definition queryAllByLabelText (container : elem) (text : Matcher)
           (o : SelectorMatcherOptions) : result NodeArray :=
  let sel := orDefault SUniversal (selector o) in
  let exact_ := orDefault true (exact o) in
  _ <- checkContainerType container ;;
  matchNormalizer <- makeNormalizer utils (collapseWhitespace o) (trim o) (normalizer o) ;;
  labels <- queryAllLabelsByText container text
              (mkOptions None (Some exact_) None None (Some matchNormalizer)) ;;
  let matchedElements := flat_map (elementsForLabel container sel) labels in
  ariaLabel <- queryAllByAttribute utils "aria-label" container text
                 (mkOptions None (Some exact_) None None None) ;;
  let labelledElements := filterNotNull matchedElements ++ map Some ariaLabel in
  possibleAriaLabelElements <- queryAllByText container text
              (mkOptions None (Some exact_) None None (Some matchNormalizer)) ;;
  let ariaLabelledElements := flat_map (labelledNodes container) possibleAriaLabelElements in
  filterMatches sel (arrayFromSet (labelledElements ++ map Some ariaLabelledElements)).

Definition foundLabelMessage (text : Matcher) : string :=
  ("Found a label with the text of: " ++ Matcher_toString text ++
   ", however no form control was found associated to that label. Make sure you're using the " ++ dquote ++ "for" ++ dquote ++ " attribute or " ++ dquote ++ "aria-labelledby" ++ dquote ++ " attribute correctly.")%string.

Definition noLabelMessage (text : Matcher) : string :=
  ("Unable to find a label with the text of: " ++ Matcher_toString text)%string.

(** [getConfig().getElementError(message, container)] is the value
    [ElementError message container]. *)
Definition getAllByLabelText (container : elem) (text : Matcher)
           (rest : SelectorMatcherOptions) : result NodeArray :=
  els <- queryAllByLabelText container text rest ;;
  match els with
  | [] =>
      labels <- queryAllLabelsByText container text rest ;;
      match labels with
      | _ :: _ => Throw (ElementError (foundLabelMessage text) container)
      | [] => Throw (ElementError (noLabelMessage text) container)
      end
  | _ :: _ => Ok els
  end.

End LabelText.

(** ** queries/title.js *)

Section Title.

Variable utils : AllUtils.

(** ['[title], svg > title'] *)
Definition titleSelector : Selector :=
  SList (SHasAttr "title") (SChild (STag "svg") (STag "title")).

Definition queryAllByTitle (container : elem) (text : Matcher)
           (o : SelectorMatcherOptions) : result (list elem) :=
  let matcher := if orDefault true (exact o) then matches utils else fuzzyMatches utils in
  matchNormalizer <- makeNormalizer utils (collapseWhitespace o) (trim o) (normalizer o) ;;
  Ok (filter
        (fun node =>
           matcher (Dom.getAttribute node "title") node text matchNormalizer
           || matcher (Some (getNodeText utils node)) node text matchNormalizer)
        (Dom.querySelectorAll container titleSelector)).

End Title.

(** ** suggestions *)

(** What [makeSuggestion] returns: [toString] is the text the object's
    [toString()] gives. *)
Record Suggestion : Type := mkSuggestion {
  queryName : string;
  toString : string
}.

Definition makeSuggestion (queryName content variant : string) (name : option string)
  : Suggestion :=
  let options :=
    if js_truthy name
    then (", {name: /" ++ JsString.toLowerCase (js_to_string name) ++ "/i}")%string
    else EmptyString in
  mkSuggestion queryName
    (variant ++ "By" ++ queryName ++ "(" ++ dquote ++ content ++ dquote ++ options ++ ")")%string.

(** Modelled from the spec: the normalizer of [./matches] is not part of the
    sources at hand. Section 4.1 has it as a function from text to text that
    trims and collapses its argument; called on a value that is no string,
    as [normalize(element.value)] can be, it asks the value for a method of
    strings and raises a [TypeError]. *)
Definition callNormalizer (normalize : NormalizerFn) (v : JsValue) : result string :=
  match v with
  | VString s => Ok (normalize s)
  | VUndefined => Throw (TypeError "Cannot read property 'trim' of undefined")
  | VNumber _ _ => Throw (TypeError "normalizedText.trim is not a function")
  end.

Section Suggestions.

(** [Object.keys(getRoles(element))], from [./role-helpers]. *)
Variable getRoles : elem -> list string.
(** [computeAccessibleName], from [dom-accessibility-api]. *)
Variable computeAccessibleName : elem -> string.
(** [const normalize = getDefaultNormalizer()], from [./matches]. *)
Variable normalize : NormalizerFn.
(** [element.labels]: the labels of a labelable element, [None] for the
    elements that have no such property. *)
Variable labels : elem -> option (list elem).
(** The global [document]. *)
Variable document : elem.
(** [root.querySelector(text)] with the selector given as text: the parser
    of the platform reads the text, and throws on what is no selector. *)
Variable querySelectorText : elem -> string -> result (option elem).

Definition getLabelTextFor (element : elem) : result (option string) :=
  let label :=
    match labels element with
    | Some ls => find (fun el => JsString.truthy (normalize (Dom.textContent el))) ls
    | None => None
    end in
  (* non form elements that are using aria-labelledby won't be included in element.labels *)
  label <- match label with
           | Some l => Ok (Some l)
           | None =>
               let ariaLabelledBy := Dom.getAttribute element "aria-labelledby" in
               if js_truthy ariaLabelledBy
               then querySelectorText document
                      ("[id=" ++ js_to_string ariaLabelledBy ++ "]")%string
               else Ok None
           end ;;
  match label with
  | Some l => Ok (Some (Dom.textContent l))
  | None => Ok None
  end.

Definition getSuggestedQuery (element : elem) (variant : string)
  : result (option Suggestion) :=
  match getRoles element with
  | role :: _ =>
      Ok (Some (makeSuggestion "Role" role variant (Some (computeAccessibleName element))))
  | [] =>
      labelText <- getLabelTextFor element ;;
      if js_truthy labelText
      then Ok (Some (makeSuggestion "LabelText" (js_to_string labelText) variant None))
      else
        let placeholderText := Dom.getAttribute element "placeholder" in
        if js_truthy placeholderText
        then Ok (Some (makeSuggestion "PlaceholderText" (js_to_string placeholderText)
                         variant None))
        else
          let textContent := normalize (Dom.textContent element) in
          if JsString.truthy textContent
          then Ok (Some (makeSuggestion "Text" textContent variant None))
          else
            if value_truthy (Dom.valueOf element)
            then
              normalized <- callNormalizer normalize (Dom.valueOf element) ;;
              Ok (Some (makeSuggestion "DisplayValue" normalized variant None))
            else
              let alt := Dom.getAttribute element "alt" in
              if js_truthy alt
              then Ok (Some (makeSuggestion "AltText" (js_to_string alt) variant None))
              else
                let title := Dom.getAttribute element "title" in
                if js_truthy title
                then Ok (Some (makeSuggestion "Title" (js_to_string title) variant None))
                else Ok None
  end.

(** The seven candidates of section 4.5, each evaluated on its own:
    [Ok (Some s)] when the candidate applies, [Ok None] when it does not. A
    role applies when the element has one; a label text, a placeholder, an
    own text, a value, an [alt] and a [title] apply when they are there and
    not empty. The label-text candidate goes through the label lookup, the
    value candidate through the normalizer: their evaluation can raise. *)
Definition roleCandidate (element : elem) (variant : string) : result (option Suggestion) :=
  Ok (match getRoles element with
      | role :: _ =>
          Some (makeSuggestion "Role" role variant (Some (computeAccessibleName element)))
      | [] => None
      end).

Definition labelTextCandidate (element : elem) (variant : string)
  : result (option Suggestion) :=
  labelText <- getLabelTextFor element ;;
  Ok (if js_truthy labelText
      then Some (makeSuggestion "LabelText" (js_to_string labelText) variant None)
      else None).

Definition attributeCandidate (queryName attribute : string) (element : elem)
           (variant : string) : result (option Suggestion) :=
  Ok (if js_truthy (Dom.getAttribute element attribute)
      then Some (makeSuggestion queryName
                   (js_to_string (Dom.getAttribute element attribute)) variant None)
      else None).

Definition textCandidate (element : elem) (variant : string) : result (option Suggestion) :=
  Ok (if JsString.truthy (normalize (Dom.textContent element))
      then Some (makeSuggestion "Text" (normalize (Dom.textContent element)) variant None)
      else None).

Definition valueCandidate (element : elem) (variant : string) : result (option Suggestion) :=
  if value_truthy (Dom.valueOf element)
  then normalized <- callNormalizer normalize (Dom.valueOf element) ;;
       Ok (Some (makeSuggestion "DisplayValue" normalized variant None))
  else Ok None.

(** role > label text > placeholder > own text > value > alt text > title *)
Definition candidates (element : elem) (variant : string)
  : list (result (option Suggestion)) :=
  [ roleCandidate element variant;
    labelTextCandidate element variant;
    attributeCandidate "PlaceholderText" "placeholder" element variant;
    textCandidate element variant;
    valueCandidate element variant;
    attributeCandidate "AltText" "alt" element variant;
    attributeCandidate "Title" "title" element variant ].

End Suggestions.

(** The query families of the candidates, in the order of priority. *)
Definition priorityOrder : list string :=
  ["Role"; "LabelText"; "PlaceholderText"; "Text"; "DisplayValue"; "AltText"; "Title"].

(** Sections 4.5 and 7 in their own words: evaluate in strict priority order
    and return the first applicable candidate; no suggestion when none
    applies. The suggestion never raises on its own account: a candidate
    that cannot be computed does not apply. *)
Fixpoint firstApplicable (cs : list (result (option Suggestion))) : option Suggestion :=
  match cs with
  | [] => None
  | Ok (Some s) :: _ => Some s
  | _ :: rest => firstApplicable rest
  end.

(** ** The collaborators, from the specification *)

Module SpecUtils.

(** Modelled from the spec: [getDefaultNormalizer] of [./matches] is not
    part of the sources at hand. Section 4.1: collapse runs of whitespace
    to a single space and trim leading/trailing whitespace, unless
    [collapseWhitespace=false] or [trim=false] override the respective
    step. *)
Definition getDefaultNormalizer (trim collapseWhitespace : option bool) : NormalizerFn :=
  fun text =>
    let text := if orDefault true trim then JsString.trim text else text in
    if orDefault true collapseWhitespace then JsString.collapse text else text.

(** Modelled from the spec: [makeNormalizer] of [./matches] is missing too.
    Section 4.1: a custom normalizer must not be combined with
    [collapseWhitespace]/[trim]; combining them fails with a configuration
    error at build time. *)
Definition makeNormalizer (collapseWhitespace trim : option bool)
           (normalizer : option NormalizerFn) : result NormalizerFn :=
  match normalizer with
  | Some f =>
      match trim, collapseWhitespace with
      | None, None => Ok f
      | _, _ => Throw (ConfigurationError
                         "trim and collapseWhitespace are not supported with a normalizer")
      end
  | None => Ok (getDefaultNormalizer trim collapseWhitespace)
  end.

(** Modelled from the spec: [matches] of [./matches] is missing. Section
    4.2, exact mode: a string pattern requires equality of the normalized
    texts (normalization applied to candidate and pattern alike), a regular
    expression a test against the normalized text, a function is called
    with the normalized text and the node; an absent text is no match. *)
Definition matches : MatcherFn :=
  fun textToMatch node matcher normalizer =>
    match textToMatch with
    | None => false
    | Some t =>
        let normalizedText := normalizer t in
        match matcher with
        | MString s => String.eqb normalizedText (normalizer s)
        | MRegExp _ test => test normalizedText
        | MFunction _ f => f normalizedText node
        end
    end.

(** Modelled from the spec: [fuzzyMatches] of [./matches] is missing.
    Section 4.2, fuzzy mode: a string pattern requires case-insensitive
    substring containment after normalization; the other patterns behave
    as in exact mode. *)
Definition fuzzyMatches : MatcherFn :=
  fun textToMatch node matcher normalizer =>
    match textToMatch with
    | None => false
    | Some t =>
        let normalizedText := normalizer t in
        match matcher with
        | MString s =>
            JsString.includes (JsString.toLowerCase (normalizer s))
                              (JsString.toLowerCase normalizedText)
        | MRegExp _ test => test normalizedText
        | MFunction _ f => f normalizedText node
        end
    end.

(** Modelled from the spec: [getNodeText] is missing; the node's own text
    is the text of its text-node children. *)
Definition getNodeText (node : elem) : string :=
  String.concat EmptyString
    (flat_map (fun c => match c with TextNode d => [d] | Element _ _ _ _ _ => [] end)
              (Dom.childNodes (self node))).

(** Modelled from the spec: [queryAllByAttribute] of [../query-helpers] is
    missing. Section 4.3, step 4: every node under the container carrying
    the attribute, with a value matching the pattern; options as in the
    other queries. *)
Definition queryAllByAttribute (attribute : string) (container : elem) (text : Matcher)
           (o : SelectorMatcherOptions) : result (list elem) :=
  let matcher := if orDefault true (exact o) then matches else fuzzyMatches in
  matchNormalizer <- makeNormalizer (collapseWhitespace o) (trim o) (normalizer o) ;;
  Ok (filter (fun node => matcher (Dom.getAttribute node attribute) node text matchNormalizer)
             (Dom.querySelectorAll container (SHasAttr attribute))).

Definition utils : AllUtils :=
  mkAllUtils fuzzyMatches matches makeNormalizer queryAllByAttribute getNodeText.

(** Modelled from the spec: [queryAllByText] of [./text] is missing.
    Section 4.3, step 5: every node (here: under the container, meeting
    the selector) whose own text matches the pattern. *)
Definition queryAllByText (container : elem) (text : Matcher)
           (o : SelectorMatcherOptions) : result (list elem) :=
  let matcher := if orDefault true (exact o) then matches else fuzzyMatches in
  matchNormalizer <- makeNormalizer (collapseWhitespace o) (trim o) (normalizer o) ;;
  Ok (filter (fun node => matcher (Some (getNodeText node)) node text matchNormalizer)
             (Dom.querySelectorAll container (orDefault SUniversal (selector o)))).

(** Modelled from the spec: [checkContainerType] of [../helpers] is missing.
    Section 4.3, step 1: the container must be a tree-root-capable node;
    every element handle is one. *)
Definition checkContainerType (container : elem) : result unit := Ok tt.

(** A document without label association: [label.control] is not there. *)
Definition noControl (label : elem) : option elem := None.

(** Letters, digits, [-], [_] and the bytes of characters beyond ASCII. *)
Definition is_name_char (c : ascii) : bool :=
  let n := nat_of_ascii c in
  (((48 <=? n) && (n <=? 57)) || ((65 <=? n) && (n <=? 90))
   || ((97 <=? n) && (n <=? 122)) || (n =? 45) || (n =? 95) || (128 <=? n))%nat.

Definition is_digit (c : ascii) : bool :=
  let n := nat_of_ascii c in ((48 <=? n) && (n <=? 57))%nat.

Fixpoint all_chars (p : ascii -> bool) (s : string) : bool :=
  match s with
  | EmptyString => true
  | String c s' => p c && all_chars p s'
  end.

(** A CSS identifier written without escapes: name characters only, not
    starting with a digit, nor with a hyphen and a digit, and not a lone
    hyphen. *)
Definition is_css_identifier (s : string) : bool :=
  all_chars is_name_char s &&
  match s with
  | EmptyString => false
  | String c s' =>
      if is_digit c then false
      else if (nat_of_ascii c =? 45)%nat
           then match s' with
                | EmptyString => false
                | String d _ => negb (is_digit d)
                end
           else true
  end.

(** The text between [[id=] and the closing bracket, when the selector
    text has that form. *)
Fixpoint strip_suffix_bracket (s : string) : option string :=
  match s with
  | EmptyString => None
  | String c s' =>
      match s' with
      | EmptyString => if (nat_of_ascii c =? 93)%nat then Some EmptyString else None
      | _ => option_map (String c) (strip_suffix_bracket s')
      end
  end.

(** [root.querySelector(text)] for the texts of the form [[id=value]] with
    the value unquoted, the one form [getLabelTextFor] builds. The grammar
    of selectors wants an identifier (or a quoted string) after the [=]:
    a value with a dot or a blank in it is no identifier, and the parser
    throws a [SyntaxError]. Escapes, quoted values and attribute flags,
    which the full grammar also reads, are not part of this parser. *)
Definition querySelectorText (root : elem) (text : string) : result (option elem) :=
  if prefix "[id=" text
  then match strip_suffix_bracket (JsString.drop 4 text) with
       | Some v =>
           if is_css_identifier v
           then Ok (Dom.querySelector root (SAttrEq "id" v))
           else Throw (SyntaxError text)
       | None => Throw (SyntaxError text)
       end
  else Throw (SyntaxError text).

End SpecUtils.

(** ** Documents of the scenarios *)

Module Scenario.

Definition el (i : nat) (tag : string) (attrs : list (string * string))
           (children : list node) : node :=
  Element i tag attrs VUndefined children.

(** An element with a [value] property (input, textarea, select). *)
Definition control (i : nat) (tag : string) (attrs : list (string * string))
           (v : string) (children : list node) : node :=
  Element i tag attrs (VString v) children.

(** A container that is the root of its tree. *)
Definition root (n : node) : elem := mkElem [] n.

Definition queryAllByLabelText :=
  queryAllByLabelText SpecUtils.utils SpecUtils.queryAllByText
                      SpecUtils.checkContainerType SpecUtils.noControl.

Definition getAllByLabelText :=
  getAllByLabelText SpecUtils.utils SpecUtils.queryAllByText
                    SpecUtils.checkContainerType SpecUtils.noControl.

Definition queryAllLabelsByText := queryAllLabelsByText SpecUtils.utils.

Definition queryAllByTitle := queryAllByTitle SpecUtils.utils.

(** [<div><svg><title>Close</title></svg></div>] *)
Definition svgTitle : node := el 3 "title" [] [TextNode "Close"].
Definition svgNode : node := el 2 "svg" [] [svgTitle].
Definition svgDiv : node := el 1 "div" [] [svgNode].
Definition svgContainer : elem := root svgDiv.

(** [<div><label id="l" for="i">Name<input id="i" aria-labelledby="l"></label></div>]:
    the input is reachable by [for], by [aria-labelledby] and by nesting. *)
Definition manyWaysInput : node :=
  control 3 "input" [("id", "i"); ("aria-labelledby", "l")] EmptyString [].
Definition manyWaysLabel : node :=
  el 2 "label" [("id", "l"); ("for", "i")] [TextNode "Name"; manyWaysInput].
Definition manyWaysDiv : node := el 1 "div" [] [manyWaysLabel].
Definition manyWays : elem := root manyWaysDiv.
Definition manyWaysResult : elem := mkElem [manyWaysLabel; manyWaysDiv] manyWaysInput.

(** [<div><input aria-label="Name"><label for="n">Name</label><input id="n"></div>] *)
Definition orderFirst : node := control 2 "input" [("aria-label", "Name")] EmptyString [].
Definition orderLabel : node := el 3 "label" [("for", "n")] [TextNode "Name"].
Definition orderSecond : node := control 4 "input" [("id", "n")] EmptyString [].
Definition orderDiv : node := el 1 "div" [] [orderFirst; orderLabel; orderSecond].
Definition order : elem := root orderDiv.


(** [<div><span title="Close">x</span><svg><title>Close</title></svg></div>] *)
Definition twoTitlesSpan : node := el 2 "span" [("title", "Close")] [TextNode "x"].
Definition twoTitlesTitle : node := el 4 "title" [] [TextNode "Close"].
Definition twoTitlesSvg : node := el 3 "svg" [] [twoTitlesTitle].
Definition twoTitlesDiv : node := el 1 "div" [] [twoTitlesSpan; twoTitlesSvg].
Definition twoTitles : elem := root twoTitlesDiv.

(** [<div><p>nothing</p></div>] and [<div><label>Name</label></div>] *)
Definition noLabel : elem := root (el 1 "div" [] [el 2 "p" [] [TextNode "nothing"]]).
Definition looseLabel : elem := root (el 1 "div" [] [el 2 "label" [] [TextNode "Name"]]).

(** A page: [<p id="user.name">User name</p>], a span that names it in
    [aria-labelledby], a span that lists two ids and has a placeholder, a
    paragraph with the id [intro] and a span that names it, and
    [<button>Submit</button>]. *)
Definition dottedTarget : node := el 3 "p" [("id", "user.name")] [TextNode "User name"].
Definition dottedSpan : node := el 4 "span" [("aria-labelledby", "user.name")] [].
Definition twoIdsSpan : node :=
  el 5 "span" [("aria-labelledby", "a b"); ("placeholder", "hint")] [].
Definition introTarget : node := el 6 "p" [("id", "intro")] [TextNode "Welcome"].
Definition introSpan : node := el 7 "span" [("aria-labelledby", "intro")] [].
Definition submitButton : node := el 8 "button" [] [TextNode "Submit"].
Definition pageBody : node :=
  el 2 "body" [] [dottedTarget; dottedSpan; twoIdsSpan; introTarget; introSpan; submitButton].
Definition pageHtml : node := el 1 "html" [] [pageBody].
Definition pageNode : node := Element 0 "#document" [] VUndefined [pageHtml].
Definition page : elem := mkElem [] pageNode.
Definition inBody (n : node) : elem := mkElem [pageBody; pageHtml; pageNode] n.

(** No element of the page has a role or a [labels] property. *)
Definition noRoles (e : elem) : list string := [].
Definition noName (e : elem) : string := EmptyString.
Definition noLabels (e : elem) : option (list elem) := None.
Definition normalize : NormalizerFn := SpecUtils.getDefaultNormalizer None None.

(** A second page: [<p aria-labelledby="a b" placeholder="hint"></p>] and
    [<meter value="0.5"></meter>], whose [value] property is the number
    0.5. Neither element has a role. *)
Definition hintPara : node :=
  el 21 "p" [("aria-labelledby", "a b"); ("placeholder", "hint")] [].
Definition halfMeter : node :=
  Element 22 "meter" [("value", "0.5")] (VNumber "0.5" true) [].
Definition chartBody : node := el 20 "body" [] [hintPara; halfMeter].
Definition chartHtml : node := el 19 "html" [] [chartBody].
Definition chartNode : node := Element 18 "#document" [] VUndefined [chartHtml].
Definition chart : elem := mkElem [] chartNode.
Definition inChart (n : node) : elem := mkElem [chartBody; chartHtml; chartNode] n.

Definition getSuggestedQueryInChart :=
  getSuggestedQuery noRoles noName normalize noLabels chart SpecUtils.querySelectorText.

Definition candidatesInChart :=
  candidates noRoles noName normalize noLabels chart SpecUtils.querySelectorText.

Definition getLabelTextFor :=
  getLabelTextFor normalize noLabels page SpecUtils.querySelectorText.

Definition getSuggestedQuery :=
  getSuggestedQuery noRoles noName normalize noLabels page SpecUtils.querySelectorText.

(** [<div><label>abc<textarea>b</textarea></label></div>]: the value of the
    textarea is the text it holds. *)
Definition nestedTextarea : node := control 3 "textarea" [] "b" [TextNode "b"].
Definition nestedLabel : node := el 2 "label" [] [TextNode "abc"; nestedTextarea].
Definition nestedDiv : node := el 1 "div" [] [nestedLabel].
Definition nested : elem := root nestedDiv.

(** [<div><label>b a<textarea>b</textarea></label></div>] *)
Definition mixedLabel : node := el 2 "label" [] [TextNode "b a"; nestedTextarea].
Definition mixedDiv : node := el 1 "div" [] [mixedLabel].
Definition mixed : elem := root mixedDiv.

(** A caller's normalizer: it drops the hyphens. *)
Fixpoint stripHyphens (s : string) : string :=
  match s with
  | EmptyString => EmptyString
  | String c s' =>
      if (nat_of_ascii c =? 45)%nat then stripHyphens s' else String c (stripHyphens s')
  end.

Definition withStripHyphens : SelectorMatcherOptions :=
  mkOptions None None None None (Some stripHyphens).

(** [<div><label for="x">Na-me</label><input id="x"><input aria-label="Na-me"></div>] *)
Definition hyphenLabel : node := el 2 "label" [("for", "x")] [TextNode "Na-me"].
Definition hyphenInput : node := control 3 "input" [("id", "x")] EmptyString [].
Definition hyphenAria : node := control 4 "input" [("aria-label", "Na-me")] EmptyString [].
Definition hyphenDiv : node := el 1 "div" [] [hyphenLabel; hyphenInput; hyphenAria].
Definition hyphen : elem := root hyphenDiv.

(** [<div><label id="a">Name</label><span id="b">Name</span>
    <input aria-labelledby="a b"><input aria-labelledby="b">
    <input aria-labelledby="ab"></div>] *)
Definition tokLabel : node := el 2 "label" [("id", "a")] [TextNode "Name"].
Definition tokSpan : node := el 3 "span" [("id", "b")] [TextNode "Name"].
Definition tokBoth : node := control 4 "input" [("aria-labelledby", "a b")] EmptyString [].
Definition tokOne : node := control 5 "input" [("aria-labelledby", "b")] EmptyString [].
Definition tokLong : node := control 6 "input" [("aria-labelledby", "ab")] EmptyString [].
Definition tokDiv : node := el 1 "div" [] [tokLabel; tokSpan; tokBoth; tokOne; tokLong].
Definition tok : elem := root tokDiv.
Definition tokResult : NodeArray :=
  [Some (mkElem [tokDiv] tokBoth); Some (mkElem [tokDiv] tokOne)].

(** Options that no normalizer can be built from: a custom normalizer
    together with [trim]. *)
Definition clashingOptions : SelectorMatcherOptions :=
  mkOptions None None None (Some true) (Some stripHyphens).

(** [<div><label>Comment <textarea>hello</textarea> please</label></div>] *)
Definition commentTextarea : node := control 3 "textarea" [] "hello" [TextNode "hello"].
Definition commentLabel : node :=
  el 2 "label" [] [TextNode "Comment "; commentTextarea; TextNode " please"].
Definition commentDiv : node := el 1 "div" [] [commentLabel].
Definition comment : elem := root commentDiv.

(** An input with two native labels, the first one blank:
    [<label for="q">  </label><label for="q"> Query </label><input id="q">] *)
Definition blankLabel : node := el 11 "label" [("for", "q")] [TextNode "  "].
Definition queryLabel : node := el 12 "label" [("for", "q")] [TextNode " Query "].
Definition queryInput : node := control 13 "input" [("id", "q")] EmptyString [].
Definition formNode : node := el 10 "form" [] [blankLabel; queryLabel; queryInput].
Definition inForm (n : node) : elem := mkElem [formNode] n.
Definition nativeLabels (e : elem) : option (list elem) :=
  if Nat.eqb (Dom.id e) 13 then Some [inForm blankLabel; inForm queryLabel] else None.

End Scenario.

(** ** Order and identity of results *)

(** [s] holds entries of [l], in the order they have in [l]. *)
Inductive Subsequence {A : Type} : list A -> list A -> Prop :=
| Subsequence_done : forall l, Subsequence [] l
| Subsequence_keep : forall x s l, Subsequence s l -> Subsequence (x :: s) (x :: l)
| Subsequence_drop : forall x s l, Subsequence s l -> Subsequence s (x :: l).

(** The identity of an array entry: the node's id, [None] for [null]. *)
Definition entryKey (x : option elem) : option nat := option_map Dom.id x.


(** The entries of an array that are nodes. *)
Definition nodesOf (l : NodeArray) : list elem :=
  flat_map (fun x => match x with Some e => [e] | None => [] end) l.

(** The nodes that [queryAllByLabelText] resolves, in the order in which it
    resolves them: through the matching labels, then by [aria-label], then
    through the [aria-labelledby] of the nodes that refer to a node whose
    text matches. *)
Definition resolutionSequence (control : elem -> option elem) (container : elem)
           (sel : Selector) (labels ariaLabel texts : list elem) : NodeArray :=
  (filterNotNull (flat_map (elementsForLabel control container sel) labels)
   ++ map Some ariaLabel)
  ++ map Some (flat_map (labelledNodes container) texts).

(** The options that [queryAllByLabelText] hands to [queryAllLabelsByText]
    and to [queryAllByText], and those it hands to [queryAllByAttribute]. *)
Definition innerOptions (o : SelectorMatcherOptions) (matchNormalizer : NormalizerFn)
  : SelectorMatcherOptions :=
  mkOptions None (Some (orDefault true (exact o))) None None (Some matchNormalizer).

Definition exactOnly (o : SelectorMatcherOptions) : SelectorMatcherOptions :=
  mkOptions None (Some (orDefault true (exact o))) None None None.

(** ** The single-result queries of queries/label-text *)

(** Modelled from the spec: [makeSingleQuery] of [../query-helpers] is not
    part of the sources at hand. Section 4.4: it invokes the all-query,
    raises a multiplicity error built from the message of
    [getMultipleError(container, pattern)] if more than one node came back,
    and returns the single node, or the no-match value when there is none. *)
Definition makeSingleQuery
           (allQuery : elem -> Matcher -> SelectorMatcherOptions -> result NodeArray)
           (getMultipleError : elem -> Matcher -> string)
  : elem -> Matcher -> SelectorMatcherOptions -> result (option elem) :=
  fun container text rest =>
    els <- allQuery container text rest ;;
    match els with
    | _ :: _ :: _ => Throw (ElementError (getMultipleError container text) container)
    | [x] => Ok x
    | [] => Ok None
    end.

(** [getMultipleError] of queries/label-text. *)
Definition getMultipleError (c : elem) (text : Matcher) : string :=
  ("Found multiple elements with the text of: " ++ Matcher_toString text)%string.

(** [const getByLabelText = makeSingleQuery(getAllByLabelText, getMultipleError)] *)
Definition getByLabelText (utils : AllUtils)
           (queryAllByText : elem -> Matcher -> SelectorMatcherOptions -> result (list elem))
           (checkContainerType : elem -> result unit) (control : elem -> option elem)
  : elem -> Matcher -> SelectorMatcherOptions -> result (option elem) :=
  makeSingleQuery (getAllByLabelText utils queryAllByText checkContainerType control)
                  getMultipleError.

(** ** Whole tokens, node identity, order of resolution *)





(** What a matching label contributes, piece by piece: its control, the
    first element under the container with the id its [for] names, and the
    first form control inside it that meets the selector; and the nodes
    under the container that list the id of a node in [aria-labelledby]. *)
Definition controlOf (control : elem -> option elem) (label : elem) : list elem :=
  match control label with
  | Some c => [c]
  | None => []
  end.

Definition forTarget (container label : elem) : list elem :=
  match Dom.getAttribute label "for" with
  | Some f =>
      if JsString.truthy f
      then match Dom.querySelector container (SAttrEq "id" f) with
           | Some x => [x]
           | None => []
           end
      else []
  | None => []
  end.

Definition referrers (container node : elem) : list elem :=
  match Dom.getAttribute node "id" with
  | Some i =>
      if JsString.truthy i
      then Dom.querySelectorAll container (SAttrIncludes "aria-labelledby" i)
      else []
  | None => []
  end.

Definition nestedControl (sel : Selector) (label : elem) : list elem :=
  if Dom.hasChildNodes label
  then match hd_error (filter (fun element => Dom.matches element sel)
                              (Dom.querySelectorAll label formControlSelector)) with
       | Some x => [x]
       | None => []
       end
  else [].


(** * Properties *)

(** ** Lists *)

Section ListFacts.

Context {A : Type}.

Lemma Subsequence_refl (l : list A) : Subsequence l l.
Proof. induction l; constructor; assumption. Qed.

Lemma Subsequence_filter (p : A -> bool) (l : list A) : Subsequence (filter p l) l.
Proof.
  induction l as [|x l IH]; simpl.
  - constructor.
  - destruct (p x); constructor; assumption.
Qed.


Lemma Subsequence_In (s l : list A) (x : A) :
  Subsequence s l -> In x s -> In x l.
Proof.
  induction 1 as [l|y s l Hsl IH|y s l Hsl IH]; simpl; intros Hin.
  - contradiction.
  - destruct Hin as [->|Hin]; [left; reflexivity | right; auto].
  - right; auto.
Qed.

Lemma Subsequence_map {B : Type} (f : A -> B) (s l : list A) :
  Subsequence s l -> Subsequence (map f s) (map f l).
Proof. induction 1; simpl; constructor; assumption. Qed.

Lemma Subsequence_NoDup (s l : list A) :
  Subsequence s l -> NoDup l -> NoDup s.
Proof.
  induction 1 as [l|y s l Hsl IH|y s l Hsl IH]; intros Hnd.
  - constructor.
  - inversion Hnd; subst. constructor.
    + intros Hin. eapply Subsequence_In in Hin; eauto.
    + auto.
  - inversion Hnd; subst. auto.
Qed.

End ListFacts.

(** ** Arrays of nodes *)

Lemma sameEntry_key (a b : option elem) :
  sameEntry a b = true <-> entryKey a = entryKey b.
Proof.
  destruct a as [x|], b as [y|]; simpl; unfold Dom.same.
  - rewrite Nat.eqb_eq. split; [intros ->; reflexivity | intros H; injection H; auto].
  - split; discriminate.
  - split; discriminate.
  - split; reflexivity.
Qed.

Lemma existsb_sameEntry (x : option elem) (seen : NodeArray) :
  existsb (sameEntry x) seen = true <-> In (entryKey x) (map entryKey seen).
Proof.
  rewrite existsb_exists, in_map_iff. split.
  - intros [y [Hin Hs]]. exists y. apply sameEntry_key in Hs. auto.
  - intros [y [Hk Hin]]. exists y. split; [assumption|]. apply sameEntry_key. auto.
Qed.

Lemma uniq_from_Subsequence (seen l : NodeArray) : Subsequence (uniq_from seen l) l.
Proof.
  revert seen. induction l as [|x l IH]; intros seen; simpl.
  - constructor.
  - destruct (existsb (sameEntry x) seen); constructor; apply IH.
Qed.

Lemma uniq_from_fresh (seen l : NodeArray) (x : option elem) :
  In x (uniq_from seen l) -> ~ In (entryKey x) (map entryKey seen).
Proof.
  revert seen. induction l as [|y l IH]; intros seen; simpl.
  - contradiction.
  - destruct (existsb (sameEntry y) seen) eqn:E.
    + apply IH.
    + intros [->|Hin].
      * intros Hc. apply existsb_sameEntry in Hc. congruence.
      * intros Hc. apply (IH _ Hin). simpl. right. assumption.
Qed.

Lemma uniq_from_NoDup (seen l : NodeArray) : NoDup (map entryKey (uniq_from seen l)).
Proof.
  revert seen. induction l as [|x l IH]; intros seen; simpl.
  - constructor.
  - destruct (existsb (sameEntry x) seen) eqn:E; [apply IH|].
    simpl. constructor; [|apply IH].
    intros Hin. apply in_map_iff in Hin. destruct Hin as [y [Hk Hy]].
    apply uniq_from_fresh in Hy. apply Hy. simpl. left. symmetry. assumption.
Qed.

(** Every value of the array is still there after the round trip through a
    [Set], up to identity. *)
Lemma uniq_from_complete (seen l : NodeArray) (x : option elem) :
  In x l ->
  In (entryKey x) (map entryKey seen) \/ In (entryKey x) (map entryKey (uniq_from seen l)).
Proof.
  revert seen. induction l as [|y l IH]; intros seen; simpl.
  - contradiction.
  - intros [->|Hin].
    + destruct (existsb (sameEntry x) seen) eqn:E.
      * left. apply existsb_sameEntry. assumption.
      * right. simpl. left. reflexivity.
    + destruct (existsb (sameEntry y) seen) eqn:E.
      * apply IH. assumption.
      * destruct (IH (y :: seen) Hin) as [H|H].
        -- simpl in H. destruct H as [H|H].
           ++ right. simpl. left. assumption.
           ++ left. assumption.
        -- right. simpl. right. assumption.
Qed.

Lemma filterNotNull_spec (l : NodeArray) (x : option elem) :
  In x (filterNotNull l) <-> In x l /\ x <> None.
Proof.
  unfold filterNotNull. rewrite filter_In. split; intros [H1 H2]; split; auto.
  - destruct x; [discriminate | discriminate H2].
  - destruct x; [reflexivity | congruence].
Qed.

(** [filter] with [element.matches] returns when no entry is [null], and
    keeps the matching entries in their order. *)
Lemma filterMatches_returns (sel : Selector) (l : NodeArray) :
  Forall (fun x => x <> None) l ->
  filterMatches sel l =
  Ok (filter (fun x => match x with Some e => Dom.matches e sel | None => false end) l).
Proof.
  induction 1 as [|x l Hx Hl IH]; simpl.
  - reflexivity.
  - destruct x as [e|]; [|congruence].
    rewrite IH. simpl. destruct (Dom.matches e sel); reflexivity.
Qed.

Lemma filterMatches_Ok (sel : Selector) (l r : NodeArray) :
  filterMatches sel l = Ok r ->
  Forall (fun x => x <> None) l /\
  r = filter (fun x => match x with Some e => Dom.matches e sel | None => false end) l.
Proof.
  revert r. induction l as [|x l IH]; simpl; intros r H.
  - injection H as <-. split; [constructor | reflexivity].
  - destruct x as [e|]; [|discriminate].
    destruct (filterMatches sel l) as [rest|err] eqn:E; simpl in H; [|discriminate].
    destruct (IH rest eq_refl) as [Hall Hrest].
    split; [constructor; [discriminate | assumption]|].
    injection H as <-. rewrite Hrest. destruct (Dom.matches e sel); reflexivity.
Qed.

(** ** queryAllByLabelText and getAllByLabelText *)

Section LabelTextProperties.

Variable utils : AllUtils.
Variable queryAllByText : elem -> Matcher -> SelectorMatcherOptions -> result (list elem).
Variable checkContainerType : elem -> result unit.
Variable control : elem -> option elem.

Local Abbreviation queryAll := (queryAllByLabelText utils queryAllByText checkContainerType control).
Local Abbreviation getAll := (getAllByLabelText utils queryAllByText checkContainerType control).

Lemma bind_Ok {A B : Type} (r : result A) (k : A -> result B) (b : B) :
  bind r k = Ok b -> exists a, r = Ok a /\ k a = Ok b.
Proof. destruct r as [a|e]; simpl; [eauto | discriminate]. Qed.

(** What a call that returns went through. *)
Lemma queryAllByLabelText_Ok (container : elem) (text : Matcher)
      (o : SelectorMatcherOptions) (l : NodeArray) :
  queryAll container text o = Ok l ->
  exists matchNormalizer labels ariaLabel texts,
    makeNormalizer utils (collapseWhitespace o) (trim o) (normalizer o) = Ok matchNormalizer
    /\ queryAllLabelsByText utils container text (innerOptions o matchNormalizer) = Ok labels
    /\ queryAllByAttribute utils "aria-label" container text (exactOnly o) = Ok ariaLabel
    /\ queryAllByText container text (innerOptions o matchNormalizer) = Ok texts
    /\ filterMatches (orDefault SUniversal (selector o))
         (arrayFromSet
            (resolutionSequence control container (orDefault SUniversal (selector o))
                                labels ariaLabel texts)) = Ok l.
Proof.
  unfold queryAllByLabelText. intros H.
  apply bind_Ok in H. destruct H as [u [_ H]].
  apply bind_Ok in H. destruct H as [mn [Hmn H]].
  apply bind_Ok in H. destruct H as [labels [Hlabels H]].
  apply bind_Ok in H. destruct H as [ariaLabel [Haria H]].
  apply bind_Ok in H. destruct H as [texts [Htexts H]].
  exists mn, labels, ariaLabel, texts. repeat split; assumption.
Qed.

Lemma resolutionSequence_not_null (container : elem) (sel : Selector)
      (labels ariaLabel texts : list elem) :
  Forall (fun x => x <> None) (resolutionSequence control container sel labels ariaLabel texts).
Proof.
  apply Forall_forall. intros x Hin. unfold resolutionSequence in Hin.
  apply in_app_or in Hin. destruct Hin as [Hin|Hin].
  - apply in_app_or in Hin. destruct Hin as [Hin|Hin].
    + apply filterNotNull_spec in Hin. tauto.
    + apply in_map_iff in Hin. destruct Hin as [e [<- _]]. discriminate.
  - apply in_map_iff in Hin. destruct Hin as [e [<- _]]. discriminate.
Qed.


(** C3. The sequence that [queryAllByLabelText] returns holds no node twice
    (whatever the number of ways that lead to it), holds no [null], and
    every node of it satisfies the caller's [selector] (default [*]). *)
Theorem queryAllByLabelText_distinct_selected
        (container : elem) (text : Matcher) (o : SelectorMatcherOptions) (l : NodeArray) :
  queryAll container text o = Ok l ->
  NoDup (map entryKey l)
  /\ Forall (fun x => x <> None) l
  /\ Forall (fun e => Dom.matches e (orDefault SUniversal (selector o)) = true) (nodesOf l).
Proof.
  intros H. apply queryAllByLabelText_Ok in H.
  destruct H as [mn [labels [ariaLabel [texts [_ [_ [_ [_ H]]]]]]]].
  apply filterMatches_Ok in H. destruct H as [Hnn ->].
  set (sel := orDefault SUniversal (selector o)) in *.
  set (keep := fun x : option elem =>
                 match x with Some e => Dom.matches e sel | None => false end).
  repeat split.
  - eapply Subsequence_NoDup.
    + apply Subsequence_map. apply Subsequence_filter.
    + apply uniq_from_NoDup.
  - apply Forall_forall. intros x Hin. apply filter_In in Hin.
    destruct Hin as [_ Hk]. destruct x; [discriminate | discriminate Hk].
  - apply Forall_forall. intros e Hin. unfold nodesOf in Hin.
    apply in_flat_map in Hin. destruct Hin as [x [Hx He]].
    apply filter_In in Hx. destruct Hx as [_ Hk].
    destruct x as [e'|]; [|contradiction].
    simpl in He. destruct He as [<-|[]]. exact Hk.
Qed.

(** The call returns whenever its collaborators do: the filter by
    [selector] never meets a [null]. *)
Lemma queryAllByLabelText_returns
      (container : elem) (text : Matcher) (o : SelectorMatcherOptions)
      (matchNormalizer : NormalizerFn) (labels ariaLabel texts : list elem) :
  checkContainerType container = Ok tt ->
  makeNormalizer utils (collapseWhitespace o) (trim o) (normalizer o) = Ok matchNormalizer ->
  queryAllLabelsByText utils container text (innerOptions o matchNormalizer) = Ok labels ->
  queryAllByAttribute utils "aria-label" container text (exactOnly o) = Ok ariaLabel ->
  queryAllByText container text (innerOptions o matchNormalizer) = Ok texts ->
  queryAll container text o =
  Ok (filter (fun x => match x with
                       | Some e => Dom.matches e (orDefault SUniversal (selector o))
                       | None => false
                       end)
             (arrayFromSet
                (resolutionSequence control container (orDefault SUniversal (selector o))
                                    labels ariaLabel texts))).
Proof.
  intros Hc Hmn Hl Ha Ht. unfold queryAllByLabelText.
  rewrite Hc. simpl. rewrite Hmn. simpl.
  unfold innerOptions in Hl, Ht. rewrite Hl. simpl.
  unfold exactOnly in Ha. rewrite Ha. simpl. rewrite Ht. simpl.
  apply filterMatches_returns.
  apply Forall_forall. intros x Hin.
  eapply Subsequence_In in Hin; [|apply uniq_from_Subsequence].
  pose proof (resolutionSequence_not_null container (orDefault SUniversal (selector o))
                                          labels ariaLabel texts) as Hnn.
  rewrite Forall_forall in Hnn. apply Hnn. exact Hin.
Qed.




End LabelTextProperties.

(** ** The scenarios of the label-text and title queries *)

Lemma queryAllByLabelText_distinct_selected_witness :
  NoDup (map entryKey [Some Scenario.manyWaysResult])
  /\ Forall (fun x => x <> None) [Some Scenario.manyWaysResult]
  /\ Forall (fun e => Dom.matches e SUniversal = true) (nodesOf [Some Scenario.manyWaysResult]).
Proof.
  apply (queryAllByLabelText_distinct_selected
           SpecUtils.utils SpecUtils.queryAllByText SpecUtils.checkContainerType
           SpecUtils.noControl Scenario.manyWays (MString "Name") noOptions).
  reflexivity.
Defined.


(** The three outcomes of [getAllByLabelText], on the documents of the
    scenarios. *)
Example getAllByLabelText_no_label :
  Scenario.getAllByLabelText Scenario.noLabel (MString "Name") noOptions
  = Throw (ElementError "Unable to find a label with the text of: Name" Scenario.noLabel).
Proof. reflexivity. Qed.

Example getAllByLabelText_loose_label :
  Scenario.getAllByLabelText Scenario.looseLabel (MString "Name") noOptions
  = Throw (ElementError (foundLabelMessage (MString "Name")) Scenario.looseLabel).
Proof. reflexivity. Qed.

Example getAllByLabelText_found :
  Scenario.getAllByLabelText Scenario.manyWays (MString "Name") noOptions
  = Ok [Some Scenario.manyWaysResult].
Proof. reflexivity. Qed.



(** C7, as stated, fails: the svg node is not among the nodes that the title
    query returns for [<div><svg><title>Close</title></svg></div>]. *)
Lemma queryAllByTitle_svg_not_returned :
  exists l,
    Scenario.queryAllByTitle Scenario.svgContainer (MString "Close") noOptions = Ok l
    /\ ~ In (Dom.nid Scenario.svgNode) (map Dom.id l).
Proof.
  eexists. split; [reflexivity|]. simpl. intros [H|[]]. discriminate H.
Qed.

(** C7, amended. For a container holding [<svg><title>Close</title></svg>],
    an exact title query for the pattern [Close] returns the [title] element
    that is the child of the svg node, and nothing else. *)
Theorem queryAllByTitle_svg_title :
  Scenario.queryAllByTitle Scenario.svgContainer (MString "Close") noOptions
  = Ok [mkElem [Scenario.svgNode; Scenario.svgDiv] Scenario.svgTitle]
  /\ Scenario.queryAllByTitle Scenario.svgContainer (MString "Close")
       (mkOptions None (Some true) None None None)
     = Ok [mkElem [Scenario.svgNode; Scenario.svgDiv] Scenario.svgTitle]
  /\ Dom.tagName Scenario.svgTitle = "title"
  /\ Dom.tagName Scenario.svgNode = "svg".
Proof. repeat split. Qed.

(** ** Suggestions *)

Lemma firstApplicable_at (cs : list (result (option Suggestion))) (k : nat) (s : Suggestion) :
  nth_error cs k = Some (Ok (Some s)) ->
  (forall j, j < k -> nth_error cs j = Some (Ok None)) ->
  firstApplicable cs = Some s.
Proof.
  revert cs. induction k as [|k IH]; intros cs Hk Hbefore.
  - destruct cs as [|c cs]; [discriminate|]. simpl in Hk. injection Hk as ->. reflexivity.
  - destruct cs as [|c cs]; [discriminate|]. simpl in Hk.
    assert (Hc : c = Ok None).
    { specialize (Hbefore 0 (Nat.lt_0_succ k)). simpl in Hbefore. congruence. }
    subst c. simpl. apply IH; [assumption|].
    intros j Hj. apply (Hbefore (S j)). lia.
Qed.

Lemma firstApplicable_none (cs : list (result (option Suggestion))) :
  firstApplicable cs = None <-> Forall (fun c => forall s, c <> Ok (Some s)) cs.
Proof.
  induction cs as [|c cs IH]; simpl.
  - split; [constructor | reflexivity].
  - destruct c as [[s|]|e].
    + split; [discriminate | intros H; inversion H; subst; exfalso; eapply H2; reflexivity].
    + rewrite IH. split; [intros H; constructor; [discriminate | auto]
                         | intros H; inversion H; auto].
    + rewrite IH. split; [intros H; constructor; [discriminate | auto]
                         | intros H; inversion H; auto].
Qed.

Section SuggestionProperties.

Variable getRoles : elem -> list string.
Variable computeAccessibleName : elem -> string.
Variable normalize : NormalizerFn.
Variable labels : elem -> option (list elem).
Variable document : elem.
Variable querySelectorText : elem -> string -> result (option elem).

Local Abbreviation suggest :=
  (getSuggestedQuery getRoles computeAccessibleName normalize labels document querySelectorText).
Local Abbreviation labelTextFor :=
  (getLabelTextFor normalize labels document querySelectorText).
Local Abbreviation candidatesOf :=
  (candidates getRoles computeAccessibleName normalize labels document querySelectorText).

(** Whenever [getSuggestedQuery] returns, what it returns is the first
    applicable candidate in the order of priority, or nothing when none of
    the seven applies. *)
Lemma getSuggestedQuery_returns_first_applicable
      (element : elem) (variant : string) (r : option Suggestion) :
  suggest element variant = Ok r ->
  firstApplicable (candidatesOf element variant) = r.
Proof.
  unfold getSuggestedQuery, candidates, roleCandidate, labelTextCandidate,
    attributeCandidate, textCandidate, valueCandidate.
  destruct (getRoles element) as [|role roles].
  2:{ intros H. injection H as <-. reflexivity. }
  destruct (labelTextFor element) as [labelText|e]; simpl; [|discriminate].
  destruct (js_truthy labelText); [intros H; injection H as <-; reflexivity|].
  destruct (js_truthy (Dom.getAttribute element "placeholder"));
    [intros H; injection H as <-; reflexivity|].
  destruct (JsString.truthy (normalize (Dom.textContent element)));
    [intros H; injection H as <-; reflexivity|].
  destruct (value_truthy (Dom.valueOf element)).
  { destruct (callNormalizer normalize (Dom.valueOf element)) as [normalized|e]; simpl;
      [intros H; injection H as <-; reflexivity | discriminate]. }
  destruct (js_truthy (Dom.getAttribute element "alt"));
    [intros H; injection H as <-; reflexivity|].
  destruct (js_truthy (Dom.getAttribute element "title"));
    intros H; injection H as <-; reflexivity.
Qed.

(** It returns whenever no candidate raises. *)
Lemma getSuggestedQuery_returns_when_candidates_do (element : elem) (variant : string) :
  (forall c, In c (candidatesOf element variant) -> exists r, c = Ok r) ->
  suggest element variant = Ok (firstApplicable (candidatesOf element variant)).
Proof.
  intros Hall.
  assert (Hlabel : exists r, labelTextCandidate normalize labels document querySelectorText
                               element variant = Ok r).
  { apply Hall. simpl. right. left. reflexivity. }
  assert (Hvalue : exists r, valueCandidate normalize element variant = Ok r).
  { apply Hall. simpl. do 4 right. left. reflexivity. }
  destruct (suggest element variant) as [r|e] eqn:Hs.
  - f_equal. symmetry. apply getSuggestedQuery_returns_first_applicable. exact Hs.
  - exfalso. revert Hs. unfold getSuggestedQuery.
    destruct Hlabel as [rl Hlabel]. destruct Hvalue as [rv Hvalue].
    unfold labelTextCandidate in Hlabel. unfold valueCandidate in Hvalue.
    destruct (getRoles element) as [|role roles]; [|discriminate].
    destruct (labelTextFor element) as [labelText|e']; simpl in *; [|discriminate].
    destruct (js_truthy labelText); [discriminate|].
    destruct (js_truthy (Dom.getAttribute element "placeholder")); [discriminate|].
    destruct (JsString.truthy (normalize (Dom.textContent element))); [discriminate|].
    destruct (value_truthy (Dom.valueOf element)).
    { destruct (callNormalizer normalize (Dom.valueOf element)); simpl in *; discriminate. }
    destruct (js_truthy (Dom.getAttribute element "alt")); [discriminate|].
    destruct (js_truthy (Dom.getAttribute element "title")); discriminate.
Qed.

Lemma candidate_family (element : elem) (variant : string) (k : nat) (s : Suggestion) :
  nth_error (candidatesOf element variant) k = Some (Ok (Some s)) ->
  nth_error priorityOrder k = Some (queryName s).
Proof.
  unfold candidates, roleCandidate, labelTextCandidate, attributeCandidate,
    textCandidate, valueCandidate.
  do 7 (destruct k as [|k];
         [ intros H; cbv [nth_error bind] in H;
           repeat match type of H with
                  | context [match ?x with _ => _ end] => destruct x
                  end;
           try discriminate; inversion H; reflexivity |]).
  simpl. destruct k; discriminate.
Qed.

(** A native label with text decides the label text: the fallback is not
    consulted. *)
Lemma getLabelTextFor_native (element : elem) (ls : list elem) (label : elem) :
  labels element = Some ls ->
  find (fun el => JsString.truthy (normalize (Dom.textContent el))) ls = Some label ->
  labelTextFor element = Ok (Some (Dom.textContent label)).
Proof.
  intros Hl Hf. unfold getLabelTextFor. rewrite Hl, Hf. reflexivity.
Qed.

(** Without such a label, a non-empty [aria-labelledby] is spliced as a whole
    into one selector text, and the outcome of the lookup is the outcome of
    [document.querySelector] on that text. *)
Lemma getLabelTextFor_fallback (element : elem) (ariaLabelledBy : string) :
  match labels element with
  | Some ls => find (fun el => JsString.truthy (normalize (Dom.textContent el))) ls
  | None => None
  end = None ->
  Dom.getAttribute element "aria-labelledby" = Some ariaLabelledBy ->
  JsString.truthy ariaLabelledBy = true ->
  labelTextFor element =
  (label <- querySelectorText document ("[id=" ++ ariaLabelledBy ++ "]")%string ;;
   Ok (option_map Dom.textContent label)).
Proof.
  intros Hl Ha Ht. unfold getLabelTextFor. rewrite Hl, Ha. simpl. rewrite Ht.
  destruct (querySelectorText document _) as [[l|]|e]; reflexivity.
Qed.

(** An error of that lookup is the outcome of [getSuggestedQuery] for an
    element without a role. *)
Lemma getSuggestedQuery_lookup_error (element : elem) (variant : string) (e : error) :
  getRoles element = [] ->
  labelTextFor element = Throw e ->
  suggest element variant = Throw e.
Proof.
  intros Hr Hl. unfold getSuggestedQuery. rewrite Hr, Hl. reflexivity.
Qed.

End SuggestionProperties.

(** C1, at the failing inputs. The paragraph
    [<p aria-labelledby="a b" placeholder="hint">] has no role and no
    resolvable label text, and its placeholder applies: the first applicable
    candidate is the placeholder suggestion; but [getSuggestedQuery] does not
    return it, the label lookup raises before the placeholder is looked at.
    And for [<meter value="0.5">], whose value is there and truthy, it raises
    inside the normalizer instead of returning a suggestion or none. *)
Theorem getSuggestedQuery_not_first_applicable :
  Scenario.getSuggestedQueryInChart (Scenario.inChart Scenario.hintPara) "get"
  = Throw (SyntaxError "[id=a b]")
  /\ firstApplicable (Scenario.candidatesInChart (Scenario.inChart Scenario.hintPara) "get")
     = Some (makeSuggestion "PlaceholderText" "hint" "get" None)
  /\ Scenario.getSuggestedQueryInChart (Scenario.inChart Scenario.halfMeter) "get"
     = Throw (TypeError "normalizedText.trim is not a function")
  /\ value_truthy (Dom.valueOf (Scenario.inChart Scenario.halfMeter)) = true.
Proof. repeat split. Qed.

(** On the button of the scenario, where nothing raises, the suggestion is
    the first applicable candidate, the one by text. *)
Example getSuggestedQuery_submit_button :
  Scenario.getSuggestedQuery (Scenario.inBody Scenario.submitButton) "get"
  = Ok (Some (makeSuggestion "Text" "Submit" "get" None))
  /\ firstApplicable (candidates Scenario.noRoles Scenario.noName Scenario.normalize
                                 Scenario.noLabels Scenario.page SpecUtils.querySelectorText
                                 (Scenario.inBody Scenario.submitButton) "get")
     = Some (makeSuggestion "Text" "Submit" "get" None).
Proof. split; reflexivity. Qed.

(** C6, at the failing input: for a span without role whose
    [aria-labelledby] is [user.name], [getSuggestedQuery] does not return:
    the selector text built from the attribute is rejected by
    [document.querySelector], and the [SyntaxError] goes to the caller. The
    same happens with an attribute that lists two ids, although a
    placeholder is there to be suggested. *)
Theorem getSuggestedQuery_raises :
  Scenario.getSuggestedQuery (Scenario.inBody Scenario.dottedSpan) "get"
  = Throw (SyntaxError "[id=user.name]")
  /\ Scenario.getSuggestedQuery (Scenario.inBody Scenario.twoIdsSpan) "get"
     = Throw (SyntaxError "[id=a b]")
  /\ Dom.getAttribute (Scenario.inBody Scenario.twoIdsSpan) "placeholder" = Some "hint".
Proof. repeat split. Qed.

(** C10, at the failing input: the page holds an element whose id is
    [user.name], the whole value of the span's [aria-labelledby], yet the
    label lookup of the span resolves nothing and raises; with the value
    [a b] it raises as well, where no label text and no error is what is
    claimed. With the value [intro], an identifier, the element of that id
    is found. *)
Theorem getLabelTextFor_unquoted_id :
  option_map Dom.textContent (Dom.querySelector Scenario.page (SAttrEq "id" "user.name"))
  = Some "User name"
  /\ Scenario.getLabelTextFor (Scenario.inBody Scenario.dottedSpan)
     = Throw (SyntaxError "[id=user.name]")
  /\ Scenario.getLabelTextFor (Scenario.inBody Scenario.twoIdsSpan)
     = Throw (SyntaxError "[id=a b]")
  /\ Scenario.getLabelTextFor (Scenario.inBody Scenario.introSpan) = Ok (Some "Welcome").
Proof. repeat split. Qed.

(** ** Token lists and [aria-labelledby] *)

(** Induction on the tree, children included. *)
Lemma node_children_ind (P : node -> Prop) :
  (forall d, P (TextNode d)) ->
  (forall i t a v cs, Forall P cs -> P (Element i t a v cs)) ->
  forall n, P n.
Proof.
  intros Htext Helement. fix IH 1. intros [d|i t a v cs].
  - apply Htext.
  - apply Helement. induction cs as [|c cs IHcs]; constructor.
    + apply IH.
    + apply IHcs.
Qed.

Lemma descendants_of_isElement (n : node) :
  forall anc e, In e (Dom.descendants_of anc n) -> Dom.isElement (self e) = true.
Proof.
  induction n as [d|i t a v cs IH] using node_children_ind; intros anc e; simpl.
  - contradiction.
  - intros Hin. apply in_flat_map in Hin. destruct Hin as [c [Hc He]].
    rewrite Forall_forall in IH. specialize (IH c Hc).
    destruct c as [d|i' t' a' v' cs']; simpl in He; [contradiction|].
    destruct He as [<-|He]; [reflexivity|]. eapply IH. exact He.
Qed.

Lemma descendants_isElement (container e : elem) :
  In e (Dom.descendants container) -> Dom.isElement (self e) = true.
Proof. apply descendants_of_isElement. Qed.

(** A value without white space is one token, the value itself. *)
Lemma tokens_from_no_space (s cur : string) :
  JsString.has_css_space s = false ->
  JsString.tokens_from cur s =
  if String.eqb (cur ++ s) EmptyString then [] else [(cur ++ s)%string].
Proof.
  revert cur. induction s as [|c s IH]; intros cur Hs; simpl.
  - assert (E : (cur ++ EmptyString)%string = cur).
    { clear. induction cur as [|c cur IH]; simpl; [reflexivity | rewrite IH; reflexivity]. }
    rewrite E. reflexivity.
  - simpl in Hs. apply orb_false_iff in Hs. destruct Hs as [Hc Hs]. rewrite Hc.
    rewrite (IH _ Hs).
    assert (E : ((cur ++ String c EmptyString) ++ s)%string = (cur ++ String c s)%string).
    { clear. induction cur as [|d cur IH]; simpl; [reflexivity | rewrite IH; reflexivity]. }
    rewrite E. reflexivity.
Qed.

Lemma tokens_single (v : string) :
  JsString.has_css_space v = false -> forall i, In i (JsString.tokens v) -> i = v.
Proof.
  intros Hv i. unfold JsString.tokens. rewrite (tokens_from_no_space v EmptyString Hv). simpl.
  destruct (String.eqb v EmptyString); simpl; [contradiction|].
  intros [H|[]]. auto.
Qed.


Section AriaLabelledBy.

Variable utils : AllUtils.
Variable queryAllByText : elem -> Matcher -> SelectorMatcherOptions -> result (list elem).
Variable checkContainerType : elem -> result unit.
Variable control : elem -> option elem.

Local Abbreviation queryAll := (queryAllByLabelText utils queryAllByText checkContainerType control).


End AriaLabelledBy.

(** Many to many, and whole tokens: the label [a] and the span [b] both label
    the first input, the span labels two inputs, and the input that refers
    to [ab] is labelled by neither. *)
Example aria_labelledby_many_to_many :
  Scenario.queryAllByLabelText Scenario.tok (MString "Name") noOptions = Ok Scenario.tokResult
  /\ map Dom.id (labelledBy Scenario.tok "a") = [4]
  /\ map Dom.id (labelledBy Scenario.tok "b") = [4; 5]
  /\ labelledBy Scenario.tok "ab" = [mkElem [Scenario.tokDiv] Scenario.tokLong].
Proof. repeat split. Qed.

(** ** Nested controls and normalization *)

(** C5, at the failing input: in
    [<label>abc<textarea>b</textarea></label>] the own text of the label is
    [abc], but the pattern [abc] does not find the label: the first [b] of
    the text content goes, not the text of the textarea. And in
    [<label>b a<textarea>b</textarea></label>] the pattern [ab] finds the
    label, whose own text is [b a], thanks to the text of the textarea. *)
Theorem queryAllLabelsByText_nested_text :
  SpecUtils.getNodeText (mkElem [Scenario.nestedDiv] Scenario.nestedLabel) = "abc"
  /\ Dom.textContent (mkElem [Scenario.nestedDiv] Scenario.nestedLabel) = "abcb"
  /\ JsString.remove_first "b" "abcb" = "acb"
  /\ Scenario.queryAllLabelsByText Scenario.nested (MString "abc") noOptions = Ok []
  /\ SpecUtils.getNodeText (mkElem [Scenario.mixedDiv] Scenario.mixedLabel) = "b a"
  /\ Scenario.queryAllLabelsByText Scenario.mixed (MString "ab") noOptions
     = Ok [mkElem [Scenario.mixedDiv] Scenario.mixedLabel].
Proof. repeat split. Qed.

(** Whatever the caller's normalization options are, [queryAllByAttribute]
    is given the same options by [queryAllByLabelText]: [exact] and nothing
    else. *)
Lemma exactOnly_ignores_normalization (o : SelectorMatcherOptions)
      (c t : option bool) (f : option NormalizerFn) :
  exactOnly (mkOptions (selector o) (exact o) c t f) = exactOnly o.
Proof. reflexivity. Qed.

(** C8, at the failing input: with a caller's normalizer that drops hyphens
    and the pattern [Name], the label [Na-me] is matched and its input
    returned, the input whose [aria-label] is [Na-me] is not, although its
    value matches under the caller's normalizer: [queryAllByAttribute] is
    given [exact] alone. *)
Theorem queryAllByLabelText_aria_label_normalizer :
  Scenario.queryAllByLabelText Scenario.hyphen (MString "Name") Scenario.withStripHyphens
  = Ok [Some (mkElem [Scenario.hyphenDiv] Scenario.hyphenInput)]
  /\ SpecUtils.matches (Dom.getAttribute (mkElem [Scenario.hyphenDiv] Scenario.hyphenAria)
                                         "aria-label")
       (mkElem [Scenario.hyphenDiv] Scenario.hyphenAria) (MString "Name")
       Scenario.stripHyphens = true
  /\ SpecUtils.queryAllByAttribute "aria-label" Scenario.hyphen (MString "Name")
       (exactOnly Scenario.withStripHyphens) = Ok []
  /\ exactOnly Scenario.withStripHyphens = exactOnly noOptions.
Proof. repeat split. Qed.

(** * Further properties of the code *)

(** ** Label-text queries: errors, mechanisms, composition *)

Lemma bind_Throw {A B : Type} (r : result A) (k : A -> result B) (e : error) :
  bind r k = Throw e -> r = Throw e \/ exists a, r = Ok a /\ k a = Throw e.
Proof.
  destruct r as [a|e']; simpl; [eauto|].
  intros H. left. injection H as ->. reflexivity.
Qed.

(** A resolved node is returned, up to node identity, when the node kept for
    it meets the selector. *)
Lemma resolved_returned (sel : Selector) (seq l : NodeArray) (n : elem) :
  filterMatches sel (arrayFromSet seq) = Ok l ->
  In (Some n) seq ->
  exists m, Dom.id m = Dom.id n /\ (Dom.matches m sel = true -> In (Some m) l).
Proof.
  intros Hf Hn. apply filterMatches_Ok in Hf. destruct Hf as [_ ->].
  destruct (uniq_from_complete [] _ _ Hn) as [Hc|Hc]; [contradiction|].
  apply in_map_iff in Hc. destruct Hc as [x [Hk Hx]].
  destruct x as [m|]; [|discriminate]. simpl in Hk. injection Hk as Hk.
  exists m. split; [assumption|].
  intros Hm. apply filter_In. split; [exact Hx | exact Hm].
Qed.


Section LabelTextFurther.

Variable utils : AllUtils.
Variable queryAllByText : elem -> Matcher -> SelectorMatcherOptions -> result (list elem).
Variable checkContainerType : elem -> result unit.
Variable control : elem -> option elem.

Local Abbreviation queryAll := (queryAllByLabelText utils queryAllByText checkContainerType control).
Local Abbreviation getAll := (getAllByLabelText utils queryAllByText checkContainerType control).
Local Abbreviation getOne := (getByLabelText utils queryAllByText checkContainerType control).

Lemma getAll_returns_inv (container : elem) (text : Matcher)
      (o : SelectorMatcherOptions) (els : NodeArray) :
  getAll container text o = Ok els <-> queryAll container text o = Ok els /\ els <> [].
Proof.
  unfold getAllByLabelText.
  destruct (queryAll container text o) as [r|e]; simpl.
  - destruct r as [|x r].
    + destruct (queryAllLabelsByText utils container text o) as [[|lab labs]|e]; simpl;
        (split; [discriminate | intros [H Hne]; injection H as <-; congruence]).
    + split.
      * intros H. injection H as <-. split; [reflexivity | discriminate].
      * intros [H _]. exact H.
  - split; [discriminate | intros [H _]; discriminate].
Qed.

(** X1. [getAllByLabelText] returns a sequence exactly when
    [queryAllByLabelText] returns it and it is not empty: it never returns
    the empty sequence, and it changes nothing in a non-empty one. *)
Theorem getAllByLabelText_Ok_iff (container : elem) (text : Matcher)
        (o : SelectorMatcherOptions) (els : NodeArray) :
  getAll container text o = Ok els <-> queryAll container text o = Ok els /\ els <> [].
Proof. apply getAll_returns_inv. Qed.


(** X5. Where [makeNormalizer] hands a given normalizer back as it is, the
    label lookup that [getAllByLabelText] makes for its message finds the
    labels that [queryAllByLabelText] resolved from: both lookups are the
    same. *)
Theorem queryAllLabelsByText_same_lookup (container : elem) (text : Matcher)
        (o : SelectorMatcherOptions) (matchNormalizer : NormalizerFn) :
  makeNormalizer utils (collapseWhitespace o) (trim o) (normalizer o) = Ok matchNormalizer ->
  makeNormalizer utils None None (Some matchNormalizer) = Ok matchNormalizer ->
  queryAllLabelsByText utils container text (innerOptions o matchNormalizer)
  = queryAllLabelsByText utils container text o.
Proof.
  intros Hmn Hsame. unfold queryAllLabelsByText. simpl.
  rewrite Hmn, Hsame. simpl. destruct (exact o) as [[|]|]; reflexivity.
Qed.

(** X6. [getByLabelText], with [makeSingleQuery] as section 4.4 has it:
    what it returns is never the no-match value; it is the one node that
    [queryAllByLabelText] resolved. With two or more resolved nodes it raises
    the error of the message [Found multiple elements with the text of: ...]
    for the container. *)
Theorem getByLabelText_single (container : elem) (text : Matcher)
        (o : SelectorMatcherOptions) :
  (forall r, getOne container text o = Ok r ->
             r <> None /\ queryAll container text o = Ok [r])
  /\ (forall x y els, queryAll container text o = Ok (x :: y :: els) ->
                      getOne container text o
                      = Throw (ElementError (getMultipleError container text) container)).
Proof.
  unfold getByLabelText, makeSingleQuery. split.
  - intros r H. apply bind_Ok in H. destruct H as [els [Hels H]].
    apply getAll_returns_inv in Hels.
    destruct Hels as [Hq Hne].
    destruct els as [|x [|y els]]; [congruence | | discriminate].
    injection H as <-. split; [|exact Hq].
    destruct (queryAllByLabelText_Ok _ _ _ _ _ _ _ _ Hq) as [mn [ls [al [ts [_ [_ [_ [_ Hf]]]]]]]].
    apply filterMatches_Ok in Hf. destruct Hf as [_ Hf].
    intros ->.
    assert (Hin : In None [@None elem]) by (left; reflexivity).
    rewrite Hf in Hin. apply filter_In in Hin. destruct Hin as [_ Hk]. discriminate.
  - intros x y els Hq.
    assert (Hg : getAll container text o = Ok (x :: y :: els)).
    { apply getAll_returns_inv. split; [exact Hq | discriminate]. }
    rewrite Hg. reflexivity.
Qed.

End LabelTextFurther.

Lemma getAllByLabelText_Ok_iff_witness :
  Scenario.getAllByLabelText Scenario.manyWays (MString "Name") noOptions
  = Ok [Some Scenario.manyWaysResult].
Proof.
  apply (proj2 (getAllByLabelText_Ok_iff
                  SpecUtils.utils SpecUtils.queryAllByText SpecUtils.checkContainerType
                  SpecUtils.noControl Scenario.manyWays (MString "Name") noOptions
                  [Some Scenario.manyWaysResult])).
  split; [reflexivity | discriminate].
Defined.


Lemma queryAllLabelsByText_same_lookup_witness :
  Scenario.queryAllLabelsByText Scenario.looseLabel (MString "Name")
    (innerOptions noOptions (SpecUtils.getDefaultNormalizer None None))
  = Scenario.queryAllLabelsByText Scenario.looseLabel (MString "Name") noOptions.
Proof.
  apply (queryAllLabelsByText_same_lookup
           SpecUtils.utils Scenario.looseLabel (MString "Name") noOptions
           (SpecUtils.getDefaultNormalizer None None)).
  - reflexivity.
  - reflexivity.
Defined.

Lemma getByLabelText_single_witness :
  Some Scenario.manyWaysResult <> None
  /\ Scenario.queryAllByLabelText Scenario.manyWays (MString "Name") noOptions
     = Ok [Some Scenario.manyWaysResult].
Proof.
  apply (proj1 (getByLabelText_single
                  SpecUtils.utils SpecUtils.queryAllByText SpecUtils.checkContainerType
                  SpecUtils.noControl Scenario.manyWays (MString "Name") noOptions)).
  reflexivity.
Defined.

(** With two resolved nodes, [getByLabelText] raises. *)
Example getByLabelText_multiple :
  getByLabelText SpecUtils.utils SpecUtils.queryAllByText SpecUtils.checkContainerType
                 SpecUtils.noControl Scenario.order (MString "Name") noOptions
  = Throw (ElementError "Found multiple elements with the text of: Name" Scenario.order).
Proof. reflexivity. Qed.

(** ** Label lookup: what is matched *)

Lemma prefix_append (v s : string) : prefix v (v ++ s) = true.
Proof.
  induction v as [|c v IH]; simpl.
  - destruct s; reflexivity.
  - destruct (ascii_dec c c) as [_|Hne]; [exact IH | congruence].
Qed.

Lemma drop_append (v s : string) : JsString.drop (String.length v) (v ++ s) = s.
Proof. induction v as [|c v IH]; simpl; [reflexivity | exact IH]. Qed.

Lemma remove_first_here (pat s : string) :
  prefix pat s = true -> JsString.remove_first pat s = JsString.drop (String.length pat) s.
Proof. intros H. destruct s; cbn [JsString.remove_first]; rewrite H; reflexivity. Qed.

Lemma remove_first_later (pat : string) (c : ascii) (s : string) :
  prefix pat (String c s) = false ->
  JsString.remove_first pat (String c s) = String c (JsString.remove_first pat s).
Proof. intros H. cbn [JsString.remove_first]. rewrite H. reflexivity. Qed.

(** [replace] takes out the text at its own place when the text does not
    occur at an earlier place. *)
Lemma remove_first_exact (v post pre : string) :
  (forall k, k < String.length pre ->
             prefix v (JsString.drop k (pre ++ v ++ post)) = false) ->
  JsString.remove_first v (pre ++ v ++ post) = (pre ++ post)%string.
Proof.
  induction pre as [|c pre IH]; intros Hfree.
  - cbn [append]. rewrite remove_first_here by apply prefix_append. apply drop_append.
  - assert (H0 := Hfree 0 (Nat.lt_0_succ _)). cbn [JsString.drop append] in H0.
    cbn [append]. rewrite (remove_first_later _ _ _ H0).
    f_equal. apply IH. intros k Hk.
    apply (Hfree (S k)). simpl. lia.
Qed.

Section LabelLookup.

Variable utils : AllUtils.

Local Abbreviation matcherOf o :=
  (if orDefault true (exact o) then matches utils else fuzzyMatches utils).

(** X7. [queryAllLabelsByText] returns label elements that lie below the
    container, never the container itself or another kind of element. *)
Theorem queryAllLabelsByText_labels_below (container : elem) (text : Matcher)
        (o : SelectorMatcherOptions) (labels : list elem) (label : elem) :
  queryAllLabelsByText utils container text o = Ok labels ->
  In label labels ->
  In label (Dom.descendants container) /\ Dom.tagName (self label) = "label".
Proof.
  unfold queryAllLabelsByText. intros H Hin.
  apply bind_Ok in H. destruct H as [mn [_ H]]. injection H as <-.
  apply filter_In in Hin. destruct Hin as [Hin _].
  unfold Dom.querySelectorAll in Hin. apply filter_In in Hin.
  destruct Hin as [Hd Hm]. split; [exact Hd|].
  unfold Dom.matches in Hm. simpl in Hm.
  apply andb_true_iff in Hm. destruct Hm as [_ Hm].
  apply String.eqb_eq. exact Hm.
Qed.

(** X8. A label element below the container that holds no textarea and no
    select is found exactly when its whole text content matches the pattern
    under the normalizer built from the options. *)
Theorem queryAllLabelsByText_plain_label (container : elem) (text : Matcher)
        (o : SelectorMatcherOptions) (matchNormalizer : NormalizerFn) (label : elem) :
  makeNormalizer utils (collapseWhitespace o) (trim o) (normalizer o) = Ok matchNormalizer ->
  In label (Dom.descendants container) ->
  Dom.tagName (self label) = "label" ->
  Dom.querySelectorAll label (STag "textarea") = [] ->
  Dom.querySelectorAll label (STag "select") = [] ->
  exists labels,
    queryAllLabelsByText utils container text o = Ok labels
    /\ (In label labels
        <-> matcherOf o (Some (Dom.textContent label)) label text matchNormalizer = true).
Proof.
  intros Hmn Hd Htag Hta Hsel. unfold queryAllLabelsByText. rewrite Hmn. simpl.
  eexists. split; [reflexivity|].
  rewrite filter_In. rewrite Hta, Hsel. simpl.
  split; [intros [_ H]; exact H|].
  intros H. split; [|exact H].
  unfold Dom.querySelectorAll. apply filter_In. split; [exact Hd|].
  unfold Dom.matches. simpl. rewrite (descendants_isElement _ _ Hd). simpl.
  rewrite Htag. reflexivity.
Qed.

(** X9. For a label of the form [pre <textarea>v</textarea> post], the
    textarea holding its text [v] as value, the text that is matched is
    [pre ++ post], the text of the textarea taken out, provided [v] does not
    occur in the label's text before the place of the textarea. *)
Theorem queryAllLabelsByText_textarea_stripped
        (container : elem) (text : Matcher) (o : SelectorMatcherOptions)
        (matchNormalizer : NormalizerFn) (anc : list node) (i j : nat)
        (attrs tattrs : list (string * string)) (val : JsValue)
        (pre v post : string) :
  makeNormalizer utils (collapseWhitespace o) (trim o) (normalizer o) = Ok matchNormalizer ->
  In (mkElem anc (Element i "label" attrs val
                    [TextNode pre; Element j "textarea" tattrs (VString v) [TextNode v];
                     TextNode post]))
     (Dom.descendants container) ->
  (forall k, k < String.length pre ->
             prefix v (JsString.drop k (pre ++ v ++ post)) = false) ->
  exists labels,
    queryAllLabelsByText utils container text o = Ok labels
    /\ (In (mkElem anc (Element i "label" attrs val
                          [TextNode pre; Element j "textarea" tattrs (VString v) [TextNode v];
                           TextNode post])) labels
        <-> matcherOf o (Some (pre ++ post)%string)
              (mkElem anc (Element i "label" attrs val
                             [TextNode pre; Element j "textarea" tattrs (VString v) [TextNode v];
                              TextNode post]))
              text matchNormalizer = true).
Proof.
  intros Hmn Hd Hfree. unfold queryAllLabelsByText. rewrite Hmn. simpl.
  eexists. split; [reflexivity|].
  rewrite filter_In.
  assert (Htext : JsString.remove_first v (pre ++ v ++ post) = (pre ++ post)%string)
    by (apply remove_first_exact; exact Hfree).
  unfold Dom.querySelectorAll at 1 2. unfold Dom.descendants, Dom.matches, Dom.textContent.
  cbn. rewrite Htext.
  split; [intros [_ H]; exact H|].
  intros H. split; [|exact H].
  unfold Dom.querySelectorAll. apply filter_In. split; [exact Hd|]. reflexivity.
Qed.

End LabelLookup.

Lemma queryAllLabelsByText_labels_below_witness :
  In (mkElem [Scenario.orderDiv] Scenario.orderLabel) (Dom.descendants Scenario.order)
  /\ Dom.tagName (self (mkElem [Scenario.orderDiv] Scenario.orderLabel)) = "label".
Proof.
  apply (queryAllLabelsByText_labels_below
           SpecUtils.utils Scenario.order (MString "Name") noOptions
           [mkElem [Scenario.orderDiv] Scenario.orderLabel]).
  - reflexivity.
  - left. reflexivity.
Defined.

Lemma queryAllLabelsByText_plain_label_witness :
  exists labels,
    Scenario.queryAllLabelsByText Scenario.order (MString "Name") noOptions = Ok labels
    /\ (In (mkElem [Scenario.orderDiv] Scenario.orderLabel) labels
        <-> SpecUtils.matches
              (Some (Dom.textContent (mkElem [Scenario.orderDiv] Scenario.orderLabel)))
              (mkElem [Scenario.orderDiv] Scenario.orderLabel) (MString "Name")
              (SpecUtils.getDefaultNormalizer None None) = true).
Proof.
  apply (queryAllLabelsByText_plain_label
           SpecUtils.utils Scenario.order (MString "Name") noOptions
           (SpecUtils.getDefaultNormalizer None None)
           (mkElem [Scenario.orderDiv] Scenario.orderLabel)).
  - reflexivity.
  - simpl. right. left. reflexivity.
  - reflexivity.
  - reflexivity.
  - reflexivity.
Defined.

Lemma queryAllLabelsByText_textarea_stripped_witness :
  exists labels,
    Scenario.queryAllLabelsByText Scenario.comment (MString "Comment please") noOptions
    = Ok labels
    /\ (In (mkElem [Scenario.commentDiv] Scenario.commentLabel) labels
        <-> SpecUtils.matches (Some "Comment  please")
              (mkElem [Scenario.commentDiv] Scenario.commentLabel)
              (MString "Comment please") (SpecUtils.getDefaultNormalizer None None) = true).
Proof.
  apply (queryAllLabelsByText_textarea_stripped
           SpecUtils.utils Scenario.comment (MString "Comment please") noOptions
           (SpecUtils.getDefaultNormalizer None None) [Scenario.commentDiv] 2 3 [] [] VUndefined
           "Comment " "hello" " please").
  - reflexivity.
  - left. reflexivity.
  - intros k Hk.
    do 8 (destruct k as [|k]; [reflexivity|]).
    simpl in Hk. lia.
Defined.

(** The label of the scenario is found by its own text. *)
Example queryAllLabelsByText_comment :
  Scenario.queryAllLabelsByText Scenario.comment (MString "Comment please") noOptions
  = Ok [mkElem [Scenario.commentDiv] Scenario.commentLabel].
Proof. reflexivity. Qed.

(** ** Title queries *)

Section TitleFurther.

Variable utils : AllUtils.

(** X10. [queryAllByTitle] raises only the error of [makeNormalizer]; when a
    normalizer is built it returns exactly the elements below the container
    that carry a [title] attribute, or are a [title] child of an [svg]
    element, and whose [title] attribute or own text matches the pattern.
    An element with a [title] attribute is thus also found by its text. *)
Theorem queryAllByTitle_spec (container : elem) (text : Matcher)
        (o : SelectorMatcherOptions) :
  (forall e, queryAllByTitle utils container text o = Throw e
             <-> makeNormalizer utils (collapseWhitespace o) (trim o) (normalizer o) = Throw e)
  /\ (forall matchNormalizer,
        makeNormalizer utils (collapseWhitespace o) (trim o) (normalizer o)
        = Ok matchNormalizer ->
        exists l,
          queryAllByTitle utils container text o = Ok l
          /\ forall n,
              In n l <->
              In n (Dom.descendants container)
              /\ ((exists a, Dom.getAttribute n "title" = Some a)
                  \/ (Dom.tagName (self n) = "title"
                      /\ exists p rest, ancestors n = p :: rest
                                        /\ Dom.isElement p = true
                                        /\ Dom.tagName p = "svg"))
              /\ ((if orDefault true (exact o) then matches utils else fuzzyMatches utils)
                    (Dom.getAttribute n "title") n text matchNormalizer = true
                  \/ (if orDefault true (exact o) then matches utils else fuzzyMatches utils)
                       (Some (getNodeText utils n)) n text matchNormalizer = true)).
Proof.
  unfold queryAllByTitle. split.
  - intros e.
    destruct (makeNormalizer utils (collapseWhitespace o) (trim o) (normalizer o)) as [mn|e'];
      simpl; split; intros H; try discriminate; injection H as ->; reflexivity.
  - intros mn Hmn. rewrite Hmn. simpl. eexists. split; [reflexivity|].
    intros n. rewrite filter_In. unfold Dom.querySelectorAll. rewrite filter_In.
    rewrite orb_true_iff.
    assert (Hsel : In n (Dom.descendants container) ->
                   (Dom.matches n titleSelector = true <->
                    (exists a, Dom.getAttribute n "title" = Some a)
                    \/ (Dom.tagName (self n) = "title"
                        /\ exists p rest, ancestors n = p :: rest
                                          /\ Dom.isElement p = true
                                          /\ Dom.tagName p = "svg"))).
    { intros Hd. pose proof (descendants_isElement _ _ Hd) as Hel.
      unfold Dom.matches, titleSelector, Dom.getAttribute. simpl. rewrite Hel. simpl.
      rewrite orb_true_iff. split.
      - intros [H|H].
        + left. destruct (Dom.attr (self n) "title") as [a|]; [eauto | discriminate].
        + right. apply andb_true_iff in H. destruct H as [Ht Hp].
          apply String.eqb_eq in Ht. split; [exact Ht|].
          destruct (ancestors n) as [|p rest]; [discriminate|].
          apply andb_true_iff in Hp. destruct Hp as [Hpe Hpt].
          apply String.eqb_eq in Hpt. exists p, rest. auto.
      - intros [[a Ha]|[Ht [p [rest [Hanc [Hpe Hpt]]]]]].
        + left. rewrite Ha. reflexivity.
        + right. rewrite Ht, Hanc, Hpe, Hpt. reflexivity. }
    split.
    + intros [[Hd Hm] Hmatch]. split; [exact Hd|]. split; [apply Hsel; assumption | exact Hmatch].
    + intros [Hd [Hs Hmatch]]. split; [|exact Hmatch]. split; [exact Hd | apply Hsel; assumption].
Qed.

End TitleFurther.

Lemma queryAllByTitle_spec_witness :
  exists l,
    Scenario.queryAllByTitle Scenario.twoTitles (MString "x") noOptions = Ok l
    /\ forall n,
        In n l <->
        In n (Dom.descendants Scenario.twoTitles)
        /\ ((exists a, Dom.getAttribute n "title" = Some a)
            \/ (Dom.tagName (self n) = "title"
                /\ exists p rest, ancestors n = p :: rest
                                  /\ Dom.isElement p = true
                                  /\ Dom.tagName p = "svg"))
        /\ (SpecUtils.matches (Dom.getAttribute n "title") n (MString "x")
              (SpecUtils.getDefaultNormalizer None None) = true
            \/ SpecUtils.matches (Some (SpecUtils.getNodeText n)) n (MString "x")
                 (SpecUtils.getDefaultNormalizer None None) = true).
Proof.
  apply (proj2 (queryAllByTitle_spec SpecUtils.utils Scenario.twoTitles (MString "x") noOptions)
               (SpecUtils.getDefaultNormalizer None None)).
  reflexivity.
Defined.

(** The span whose [title] is [Close] is found by its text [x]. *)
Example queryAllByTitle_by_text :
  Scenario.queryAllByTitle Scenario.twoTitles (MString "x") noOptions
  = Ok [mkElem [Scenario.twoTitlesDiv] Scenario.twoTitlesSpan].
Proof. reflexivity. Qed.

(** ** Suggestions: errors, shape, native labels *)

Lemma find_after_skipped {A : Type} (p : A -> bool) (skipped rest : list A) (x : A) :
  Forall (fun y => p y = false) skipped ->
  p x = true ->
  find p (skipped ++ x :: rest) = Some x.
Proof.
  induction 1 as [|y skipped Hy Hs IH]; intros Hx; simpl.
  - rewrite Hx. reflexivity.
  - rewrite Hy. apply IH. exact Hx.
Qed.

Section SuggestionFurther.

Variable getRoles : elem -> list string.
Variable computeAccessibleName : elem -> string.
Variable normalize : NormalizerFn.
Variable labels : elem -> option (list elem).
Variable document : elem.
Variable querySelectorText : elem -> string -> result (option elem).

Local Abbreviation suggest :=
  (getSuggestedQuery getRoles computeAccessibleName normalize labels document querySelectorText).
Local Abbreviation labelTextFor :=
  (getLabelTextFor normalize labels document querySelectorText).

Lemma callNormalizer_Throw (v : JsValue) (e : error) :
  value_truthy v = true ->
  (callNormalizer normalize v = Throw e <->
   exists printed, v = VNumber printed true /\ e = TypeError "normalizedText.trim is not a function").
Proof.
  intros Hv. destruct v as [|s|printed nonzero]; simpl in *.
  - discriminate.
  - split; [discriminate | intros [p [H _]]; discriminate].
  - subst nonzero. split.
    + intros H. injection H as <-. exists printed. split; reflexivity.
    + intros [p [_ ->]]. reflexivity.
Qed.

Lemma getSuggestedQuery_Throw (element : elem) (variant : string) (e : error) :
  suggest element variant = Throw e <->
  getRoles element = []
  /\ (labelTextFor element = Throw e
      \/ exists labelText,
          labelTextFor element = Ok labelText
          /\ js_truthy labelText = false
          /\ js_truthy (Dom.getAttribute element "placeholder") = false
          /\ JsString.truthy (normalize (Dom.textContent element)) = false
          /\ value_truthy (Dom.valueOf element) = true
          /\ callNormalizer normalize (Dom.valueOf element) = Throw e).
Proof.
  unfold getSuggestedQuery.
  destruct (getRoles element) as [|role roles].
  2:{ split; [discriminate | intros [H _]; discriminate]. }
  destruct (labelTextFor element) as [labelText|e']; simpl.
  - destruct (js_truthy labelText) eqn:Hl.
    { split; [discriminate|].
      intros [_ [H|[lt [H [Hlt _]]]]]; [discriminate|].
      injection H as <-. congruence. }
    destruct (js_truthy (Dom.getAttribute element "placeholder")) eqn:Hp.
    { split; [discriminate|].
      intros [_ [H|[lt [_ [_ [H _]]]]]]; discriminate. }
    destruct (JsString.truthy (normalize (Dom.textContent element))) eqn:Ht.
    { split; [discriminate|].
      intros [_ [H|[lt [_ [_ [_ [H _]]]]]]]; discriminate. }
    destruct (value_truthy (Dom.valueOf element)) eqn:Hv.
    { destruct (callNormalizer normalize (Dom.valueOf element)) as [normalized|e''] eqn:Hc;
        simpl.
      - split; [discriminate|].
        intros [_ [H|[lt [_ [_ [_ [_ [_ H]]]]]]]]; discriminate.
      - split.
        + intros H. injection H as ->. split; [reflexivity|]. right.
          exists labelText. repeat split; assumption || reflexivity.
        + intros [_ [H|[lt [_ [_ [_ [_ [_ H]]]]]]]]; [discriminate|].
          injection H as ->. reflexivity. }
    split.
    + intros H. exfalso.
      destruct (js_truthy (Dom.getAttribute element "alt")); [discriminate|].
      destruct (js_truthy (Dom.getAttribute element "title")); discriminate.
    + intros [_ [H|[lt [_ [_ [_ [_ [H _]]]]]]]]; discriminate.
  - split.
    + intros H. injection H as ->. split; [reflexivity | left; reflexivity].
    + intros [_ [H|[lt [H _]]]]; [injection H as ->; reflexivity | discriminate].
Qed.

Lemma getLabelTextFor_Throw (element : elem) (e : error) :
  labelTextFor element = Throw e <->
  match labels element with
  | Some ls => find (fun el => JsString.truthy (normalize (Dom.textContent el))) ls
  | None => None
  end = None
  /\ exists v, Dom.getAttribute element "aria-labelledby" = Some v
               /\ JsString.truthy v = true
               /\ querySelectorText document ("[id=" ++ v ++ "]")%string = Throw e.
Proof.
  unfold getLabelTextFor.
  destruct (match labels element with
            | Some ls => find (fun el => JsString.truthy (normalize (Dom.textContent el))) ls
            | None => None
            end) as [l|].
  { simpl. split; [discriminate | intros [H _]; discriminate]. }
  destruct (Dom.getAttribute element "aria-labelledby") as [v|]; simpl.
  2:{ split; [discriminate | intros [_ [v [H _]]]; discriminate]. }
  destruct (JsString.truthy v) eqn:Hv.
  2:{ simpl. split; [discriminate|].
      intros [_ [w [H [Hw _]]]]. injection H as <-. congruence. }
  destruct (querySelectorText document _) as [[l|]|e'] eqn:Hq; simpl.
  - split; [discriminate|].
    intros [_ [w [H [_ Hw]]]]. injection H as <-. simpl in Hw. congruence.
  - split; [discriminate|].
    intros [_ [w [H [_ Hw]]]]. injection H as <-. simpl in Hw. congruence.
  - split.
    + intros H. injection H as ->. split; [reflexivity|]. exists v. auto.
    + intros [_ [w [H [_ Hw]]]]. injection H as <-. simpl in Hw. congruence.
Qed.

(** X11. [getSuggestedQuery] raises in two situations only, both for an
    element without a role. Either none of its native labels has text, its
    [aria-labelledby] is not empty and [document.querySelector] raises on
    the selector text built from that value: the error is that of the
    lookup. Or the label lookup returns no text, the element has no
    placeholder and no text of its own, and its [value] is a truthy number:
    the error is the [TypeError] of the normalizer. An element with a role,
    or with a native label that has text, never makes it raise. *)
Theorem suggestion_error_exactly (element : elem) (variant : string) (e : error) :
  suggest element variant = Throw e <->
  getRoles element = []
  /\ ((match labels element with
       | Some ls => find (fun el => JsString.truthy (normalize (Dom.textContent el))) ls
       | None => None
       end = None
       /\ exists v, Dom.getAttribute element "aria-labelledby" = Some v
                    /\ JsString.truthy v = true
                    /\ querySelectorText document ("[id=" ++ v ++ "]")%string = Throw e)
      \/ (exists labelText,
            labelTextFor element = Ok labelText
            /\ js_truthy labelText = false
            /\ js_truthy (Dom.getAttribute element "placeholder") = false
            /\ JsString.truthy (normalize (Dom.textContent element)) = false
            /\ exists printed,
                Dom.valueOf element = VNumber printed true
                /\ e = TypeError "normalizedText.trim is not a function")).
Proof.
  rewrite getSuggestedQuery_Throw, getLabelTextFor_Throw. split.
  - intros [Hr [H|[lt [Hl [Hlt [Hp [Ht [Hv Hc]]]]]]]]; (split; [exact Hr|]).
    + left. exact H.
    + right. exists lt. repeat (split; [assumption|]).
      apply (callNormalizer_Throw _ _ Hv). exact Hc.
  - intros [Hr [H|[lt [Hl [Hlt [Hp [Ht [printed [Hv ->]]]]]]]]]; (split; [exact Hr|]).
    + left. exact H.
    + right. exists lt. repeat (split; [assumption|]).
      rewrite Hv. split; reflexivity.
Qed.

(** X12. A suggestion that [getSuggestedQuery] returns is of one of the
    seven families, and it prints as the variant, [By], the family, and the
    quoted content in brackets; only a suggestion of the family [Role] can
    carry the clause with the accessible name, and it carries the name in
    lower case. *)
Theorem getSuggestedQuery_shape (element : elem) (variant : string) (s : Suggestion) :
  suggest element variant = Ok (Some s) ->
  In (queryName s) priorityOrder
  /\ exists content options,
      toString s = (variant ++ "By" ++ queryName s ++ "(" ++ dquote ++ content ++ dquote
                            ++ options ++ ")")%string
      /\ (options = EmptyString
          \/ (queryName s = "Role"
              /\ options = (", {name: /" ++ JsString.toLowerCase (computeAccessibleName element)
                                         ++ "/i}")%string)).
Proof.
  unfold getSuggestedQuery. intros H.
  destruct (getRoles element) as [|role roles].
  - apply bind_Ok in H. destruct H as [labelText [_ H]].
    assert (Hshape : forall q c,
               In q priorityOrder ->
               In (queryName (makeSuggestion q c variant None)) priorityOrder
               /\ exists content options,
                   toString (makeSuggestion q c variant None)
                   = (variant ++ "By" ++ queryName (makeSuggestion q c variant None) ++ "("
                              ++ dquote ++ content ++ dquote ++ options ++ ")")%string
                   /\ (options = EmptyString
                       \/ (queryName (makeSuggestion q c variant None) = "Role"
                           /\ options
                              = (", {name: /"
                                   ++ JsString.toLowerCase (computeAccessibleName element)
                                   ++ "/i}")%string))).
    { intros q c Hq. split; [exact Hq|].
      exists c, EmptyString. split; [reflexivity | left; reflexivity]. }
    destruct (js_truthy labelText);
      [injection H as <-; apply Hshape; simpl; tauto|].
    destruct (js_truthy (Dom.getAttribute element "placeholder"));
      [injection H as <-; apply Hshape; simpl; tauto|].
    destruct (JsString.truthy (normalize (Dom.textContent element)));
      [injection H as <-; apply Hshape; simpl; tauto|].
    destruct (value_truthy (Dom.valueOf element)).
    { apply bind_Ok in H. destruct H as [normalized [_ H]].
      injection H as <-. apply Hshape. simpl. tauto. }
    destruct (js_truthy (Dom.getAttribute element "alt"));
      [injection H as <-; apply Hshape; simpl; tauto|].
    destruct (js_truthy (Dom.getAttribute element "title"));
      [injection H as <-; apply Hshape; simpl; tauto | discriminate].
  - injection H as <-. split; [simpl; tauto|].
    exists role. unfold makeSuggestion. simpl.
    destruct (JsString.truthy (computeAccessibleName element)).
    + eexists. split; [reflexivity | right; split; reflexivity].
    + exists EmptyString. split; [reflexivity | left; reflexivity].
Qed.

(** X13. The label text of an element with native labels is the text
    content, as it is, of the first label whose normalized text is not
    empty: the labels before it are passed over, and neither the document
    nor [aria-labelledby] is looked at. *)
Theorem getLabelTextFor_first_native_label
        (element : elem) (skipped rest : list elem) (label : elem) :
  labels element = Some (skipped ++ label :: rest) ->
  Forall (fun l => JsString.truthy (normalize (Dom.textContent l)) = false) skipped ->
  JsString.truthy (normalize (Dom.textContent label)) = true ->
  labelTextFor element = Ok (Some (Dom.textContent label)).
Proof.
  intros Hl Hs Hlabel. unfold getLabelTextFor. rewrite Hl.
  rewrite (find_after_skipped
             (fun el => JsString.truthy (normalize (Dom.textContent el)))
             skipped rest label Hs Hlabel).
  reflexivity.
Qed.

End SuggestionFurther.

Lemma suggestion_error_exactly_witness :
  Scenario.noRoles (Scenario.inChart Scenario.halfMeter) = []
  /\ ((match Scenario.noLabels (Scenario.inChart Scenario.halfMeter) with
       | Some ls =>
           find (fun el => JsString.truthy (Scenario.normalize (Dom.textContent el))) ls
       | None => None
       end = None
       /\ exists v, Dom.getAttribute (Scenario.inChart Scenario.halfMeter) "aria-labelledby"
                    = Some v
                    /\ JsString.truthy v = true
                    /\ SpecUtils.querySelectorText Scenario.chart ("[id=" ++ v ++ "]")%string
                       = Throw (TypeError "normalizedText.trim is not a function"))
      \/ (exists labelText,
            getLabelTextFor Scenario.normalize Scenario.noLabels Scenario.chart
                            SpecUtils.querySelectorText (Scenario.inChart Scenario.halfMeter)
            = Ok labelText
            /\ js_truthy labelText = false
            /\ js_truthy (Dom.getAttribute (Scenario.inChart Scenario.halfMeter) "placeholder")
               = false
            /\ JsString.truthy
                 (Scenario.normalize (Dom.textContent (Scenario.inChart Scenario.halfMeter)))
               = false
            /\ exists printed,
                Dom.valueOf (Scenario.inChart Scenario.halfMeter) = VNumber printed true
                /\ TypeError "normalizedText.trim is not a function"
                   = TypeError "normalizedText.trim is not a function")).
Proof.
  apply (proj1 (suggestion_error_exactly
                  Scenario.noRoles Scenario.noName Scenario.normalize Scenario.noLabels
                  Scenario.chart SpecUtils.querySelectorText
                  (Scenario.inChart Scenario.halfMeter) "get"
                  (TypeError "normalizedText.trim is not a function"))).
  reflexivity.
Defined.

Lemma getSuggestedQuery_shape_witness :
  In "Text" priorityOrder
  /\ exists content options,
      toString (makeSuggestion "Text" "Submit" "get" None)
      = ("get" ++ "By" ++ "Text" ++ "(" ++ dquote ++ content ++ dquote ++ options ++ ")")%string
      /\ (options = EmptyString
          \/ ("Text" = "Role"
              /\ options = (", {name: /"
                              ++ JsString.toLowerCase
                                   (Scenario.noName (Scenario.inBody Scenario.submitButton))
                              ++ "/i}")%string)).
Proof.
  apply (getSuggestedQuery_shape
           Scenario.noRoles Scenario.noName Scenario.normalize Scenario.noLabels
           Scenario.page SpecUtils.querySelectorText
           (Scenario.inBody Scenario.submitButton) "get"
           (makeSuggestion "Text" "Submit" "get" None)).
  reflexivity.
Defined.

Lemma getLabelTextFor_first_native_label_witness :
  getLabelTextFor Scenario.normalize Scenario.nativeLabels Scenario.page
                  SpecUtils.querySelectorText (Scenario.inForm Scenario.queryInput)
  = Ok (Some " Query ").
Proof.
  apply (getLabelTextFor_first_native_label
           Scenario.normalize Scenario.nativeLabels Scenario.page SpecUtils.querySelectorText
           (Scenario.inForm Scenario.queryInput)
           [Scenario.inForm Scenario.blankLabel] [] (Scenario.inForm Scenario.queryLabel)).
  - reflexivity.
  - constructor; [reflexivity | constructor].
  - reflexivity.
Defined.

Section LabelTextForFurther.

Variable normalize : NormalizerFn.
Variable labels : elem -> option (list elem).
Variable document : elem.
Variable querySelectorText : elem -> string -> result (option elem).

Local Abbreviation labelTextFor :=
  (getLabelTextFor normalize labels document querySelectorText).

(** X14. [getLabelTextFor] returns no label text exactly when no native
    label of the element has text and either the element has no
    [aria-labelledby], or an empty one, in which cases the document is not
    searched, or the search for the element named by the attribute finds
    nothing. *)
Theorem getLabelTextFor_None_iff (element : elem) :
  labelTextFor element = Ok None <->
  match labels element with
  | Some ls => find (fun el => JsString.truthy (normalize (Dom.textContent el))) ls
  | None => None
  end = None
  /\ (Dom.getAttribute element "aria-labelledby" = None
      \/ Dom.getAttribute element "aria-labelledby" = Some EmptyString
      \/ exists v, Dom.getAttribute element "aria-labelledby" = Some v
                   /\ JsString.truthy v = true
                   /\ querySelectorText document ("[id=" ++ v ++ "]")%string = Ok None).
Proof.
  unfold getLabelTextFor.
  destruct (match labels element with
            | Some ls => find (fun el => JsString.truthy (normalize (Dom.textContent el))) ls
            | None => None
            end) as [l|].
  { simpl. split; [discriminate | intros [H _]; discriminate]. }
  destruct (Dom.getAttribute element "aria-labelledby") as [v|]; simpl.
  2:{ split; [intros _; split; [reflexivity | left; reflexivity] | reflexivity]. }
  destruct (JsString.truthy v) eqn:Hv.
  2:{ simpl. split; [|reflexivity]. intros _. split; [reflexivity|]. right. left.
      unfold JsString.truthy in Hv. apply negb_false_iff in Hv.
      apply String.eqb_eq in Hv. rewrite Hv. reflexivity. }
  destruct (querySelectorText document _) as [[l|]|e'] eqn:Hq; simpl.
  - split; [discriminate|].
    intros [_ [H|[H|[w [H [_ Hw]]]]]]; try discriminate.
    + injection H as ->. discriminate.
    + injection H as <-. simpl in Hw. congruence.
  - split; [|reflexivity]. intros _. split; [reflexivity|]. right. right.
    exists v. split; [reflexivity|]. split; [exact Hv|]. simpl. exact Hq.
  - split; [discriminate|].
    intros [_ [H|[H|[w [H [_ Hw]]]]]]; try discriminate.
    + injection H as ->. discriminate.
    + injection H as <-. simpl in Hw. congruence.
Qed.

End LabelTextForFurther.

Lemma getLabelTextFor_None_iff_witness :
  Scenario.getLabelTextFor (Scenario.inBody Scenario.submitButton) = Ok None.
Proof.
  apply (proj2 (getLabelTextFor_None_iff
                  Scenario.normalize Scenario.noLabels Scenario.page
                  SpecUtils.querySelectorText (Scenario.inBody Scenario.submitButton))).
  split; [reflexivity | left; reflexivity].
Defined.

(** * Whole tokens, identity and order *)

(** ** The tokens of an attribute value *)













(** ** Identity of the resolved nodes *)









Section ResolvedNodes.

Variable utils : AllUtils.
Variable queryAllByText : elem -> Matcher -> SelectorMatcherOptions -> result (list elem).
Variable checkContainerType : elem -> result unit.
Variable control : elem -> option elem.

Local Abbreviation queryAll := (queryAllByLabelText utils queryAllByText checkContainerType control).




End ResolvedNodes.




(** ** The order of the resolved nodes *)


Lemma nodesOf_map_Some (l : list elem) : nodesOf (map Some l) = l.
Proof. induction l as [|x l IH]; simpl; [reflexivity | rewrite IH; reflexivity]. Qed.










Section ResolutionOrder.

Variable utils : AllUtils.
Variable queryAllByText : elem -> Matcher -> SelectorMatcherOptions -> result (list elem).
Variable checkContainerType : elem -> result unit.
Variable control : elem -> option elem.

Local Abbreviation queryAll := (queryAllByLabelText utils queryAllByText checkContainerType control).


End ResolutionOrder.


(** In the document of the counterexample the order of resolution is the
    second input (through the label), then the first (by [aria-label]). *)
Example order_of_resolution :
  map Dom.id
      (flat_map (fun label =>
                   controlOf SpecUtils.noControl label
                   ++ forTarget Scenario.order label
                   ++ referrers Scenario.order label
                   ++ nestedControl SUniversal label)
                [mkElem [Scenario.orderDiv] Scenario.orderLabel]
       ++ [mkElem [Scenario.orderDiv] Scenario.orderFirst]
       ++ flat_map (referrers Scenario.order) [mkElem [Scenario.orderDiv] Scenario.orderLabel])
  = [4; 2].
Proof. reflexivity. Qed.
